(** * A shallow embedding of [consumers/project_consumer_mk.py]

    The module consumes JSON messages from a Kafka topic, keeps the
    timestamps and sentiment scores it accepts in two module-level lists and
    redraws a chart after every accepted message.

    The embedding follows the source function by function:
    [update_chart], [process_message] and [main] are written in a small
    monad that threads the module's globals and the observable events
    (log records, redraws, the closing of the consumer) and that carries
    Python exceptions, so that [try]/[except]/[finally] are modelled as the
    interpreter runs them.

    What lies outside the module is taken as a parameter of the sections
    below: the decoder [json.loads], the display surface behind pyplot, the
    environment variables and [create_kafka_consumer].  A reference decoder
    for JSON text, [Json.loads], is given as well, so that the functions can
    be run on concrete payloads. *)

From Stdlib Require Import ZArith List String Ascii Bool Lia.
From Stdlib Require Import Floats.SpecFloat.
Import ListNotations.
Local Open Scope string_scope.
Local Open Scope list_scope.
Local Open Scope Z_scope.
Set Warnings "-register-all".

(** ** Python values

    The values [json.loads] can return.  A [str] is held as the bytes of its
    UTF-8 encoding, a [float] as an IEEE 754 binary64 datum, an [int] is
    unbounded, a [dict] keeps its items in insertion order. *)

Inductive pyval : Type :=
| PyNone
| PyBool (b : bool)
| PyInt (n : Z)
| PyFloat (x : spec_float)
| PyStr (s : string)
| PyList (items : list pyval)
| PyDict (items : list (string * pyval)).

(** [bool(v)]: the truth value the [if] statement tests. *)
Definition truthy (v : pyval) : bool :=
  match v with
  | PyNone => false
  | PyBool b => b
  | PyInt n => negb (n =? 0)
  | PyFloat (S754_zero _) => false
  | PyFloat _ => true
  | PyStr s => negb (s =? "")%string
  | PyList items => match items with [] => false | _ :: _ => true end
  | PyDict items => match items with [] => false | _ :: _ => true end
  end.

(** [v is None] *)
Definition is_None (v : pyval) : bool :=
  match v with PyNone => true | _ => false end.

(** [type(v).__name__] *)
Definition type_name (v : pyval) : string :=
  match v with
  | PyNone => "NoneType"
  | PyBool _ => "bool"
  | PyInt _ => "int"
  | PyFloat _ => "float"
  | PyStr _ => "str"
  | PyList _ => "list"
  | PyDict _ => "dict"
  end.

(** [d.get(key)]: the value stored under [key], [None] when there is none. *)
Fixpoint dict_get (d : list (string * pyval)) (key : string) : pyval :=
  match d with
  | [] => PyNone
  | (k, v) :: rest => if (k =? key)%string then v else dict_get rest key
  end.

(** [d[key] = v]: overwrite in place, or insert at the end. *)
Fixpoint dict_set (d : list (string * pyval)) (key : string) (v : pyval)
  : list (string * pyval) :=
  match d with
  | [] => [(key, v)]
  | (k, v0) :: rest =>
      if (k =? key)%string then (k, v) :: rest
      else (k, v0) :: dict_set rest key v
  end.

(** ** Exceptions

    Only the position of an exception's class in the hierarchy matters to the
    handlers of the module: [json.JSONDecodeError], any other subclass of
    [Exception], [KeyboardInterrupt], and the remaining classes that derive
    from [BaseException] directly ([SystemExit], [GeneratorExit]). *)

Inductive exn : Type :=
| JSONDecodeError
| OtherException (cls : string)
| KeyboardInterrupt
| OtherBaseException (cls : string).

(** [isinstance(e, Exception)] *)
Definition is_Exception (e : exn) : bool :=
  match e with
  | JSONDecodeError | OtherException _ => true
  | KeyboardInterrupt | OtherBaseException _ => false
  end.

(** ** Observable events *)

Inductive level : Type := DEBUG | INFO | WARNING | ERROR.

(** The records the module hands to [logger], one constructor per call site,
    with the values its f-string formats. *)
Inductive log_msg : Type :=
| KafkaTopic (topic : string)
| KafkaGroupId (group_id : string)
| RawMessage (message : string)
| ProcessedJSON (message_dict : pyval)
| Appended (timestamp sentiment : pyval)
| ChartUpdated (message : string)
| ExpectedDict (ty : string)
| InvalidJSON (message : string)
| ErrorProcessing (e : exn)
| StartConsumer
| ConsumerTopicGroup (topic group_id : string)
| PollingMessages (topic : string)
| ReceivedAt (offset : Z) (message_str : string)
| Interrupted
| ErrorConsuming (e : exn)
| ConsumerClosed (topic : string)
| EndConsumer (topic group_id : string).

Inductive event : Type :=
| Logged (lvl : level) (m : log_msg)
  (** [update_chart()] ran while the lists held [xs] and [ys]; [raised] is
      the exception it ended with, if any. *)
| Render (xs ys : list pyval) (raised : option exn)
  (** [consumer.close()] was called. *)
| Close.

(** [isinstance(v, dict)] *)
Definition is_dict (v : pyval) : bool :=
  match v with PyDict _ => true | _ => false end.

(** ** The module's globals and the events so far (oldest first) *)

Record world : Type := mkWorld {
  timestamps : list pyval;
  sentiments : list pyval;
  trace : list event
}.

(** The state right after the module is imported: [timestamps = []],
    [sentiments = []]. *)
Definition initial : world := mkWorld [] [] [].

(** The series as the chart plots it: point [i] is
    [(timestamps[i], sentiments[i])]. *)
Definition store (w : world) : list (pyval * pyval) :=
  combine (timestamps w) (sentiments w).

Definition emit (ev : event) (w : world) : world :=
  mkWorld (timestamps w) (sentiments w) (trace w ++ [ev]).

(** ** The monad of statements *)

Inductive outcome (A : Type) : Type :=
| Returned (a : A)
| Raised (e : exn).
Arguments Returned {A} a.
Arguments Raised {A} e.

Definition M (A : Type) : Type := world -> outcome A * world.

Definition ret {A} (a : A) : M A := fun w => (Returned a, w).

Definition raise {A} (e : exn) : M A := fun w => (Raised e, w).

Definition bind {A B} (c : M A) (k : A -> M B) : M B :=
  fun w =>
    match c w with
    | (Returned a, w1) => k a w1
    | (Raised e, w1) => (Raised e, w1)
    end.

Declare Scope py_scope.
Delimit Scope py_scope with py.
Notation "x <- c ;; k" := (bind c (fun x => k))
  (at level 100, c at next level, right associativity) : py_scope.
Notation "c ;; k" := (bind c (fun _ => k))
  (at level 100, right associativity) : py_scope.
Local Open Scope py_scope.

(** [try: body  except ...: ...]: [handlers e] is the suite of the first
    clause that matches [e], [None] when no clause does and [e] goes on. *)
Definition try_except {A} (body : M A) (handlers : exn -> option (M A)) : M A :=
  fun w =>
    match body w with
    | (Returned a, w1) => (Returned a, w1)
    | (Raised e, w1) =>
        match handlers e with
        | Some suite => suite w1
        | None => (Raised e, w1)
        end
    end.

(** [try: body  finally: final]: [final] runs whatever [body] does; what
    [body] returned or raised stands unless [final] raises itself. *)
Definition try_finally {A} (body : M A) (final : M unit) : M A :=
  fun w =>
    let (r, w1) := body w in
    match final w1 with
    | (Returned _, w2) => (r, w2)
    | (Raised e, w2) => (Raised e, w2)
    end.

(** A call of a function of another module, given what it returns or
    raises. *)
Definition call {A} (r : outcome A) : M A := fun w => (r, w).

(** [logger.debug/info/warning/error(...)] *)
Definition log (lvl : level) (m : log_msg) : M unit :=
  fun w => (Returned tt, emit (Logged lvl m) w).

(** The number of redraws so far. *)
Fixpoint renders (tr : list event) : nat :=
  match tr with
  | [] => O
  | Render _ _ _ :: rest => S (renders rest)
  | _ :: rest => renders rest
  end.

(** The number of calls of [consumer.close()] so far. *)
Fixpoint closes (tr : list event) : nat :=
  match tr with
  | [] => O
  | Close :: rest => S (closes rest)
  | _ :: rest => closes rest
  end.

Definition is_log (ev : event) : bool :=
  match ev with
  | Logged _ _ => true
  | _ => false
  end.

(** The latest redraw: the series it was handed and how it ended. *)
Fixpoint last_render (tr : list event)
  : option (list pyval * list pyval * option exn) :=
  match tr with
  | [] => None
  | ev :: rest =>
      match last_render rest with
      | Some shown => Some shown
      | None =>
          match ev with
          | Render xs ys raised => Some (xs, ys, raised)
          | _ => None
          end
      end
  end.

Section Consumer.

(** [json.loads]: the decoded value, or the exception it raises. *)
Variable json_loads : string -> outcome pyval.

(** The display surface: [draw n xs ys] is [None] when the pyplot calls of
    the redraw number [n] (counted from 0), plotting [ys] against [xs],
    all return, and [Some e] when one of them raises [e]. *)
Variable draw : nat -> list pyval -> list pyval -> option exn.

(** [update_chart()] *)
Definition update_chart : M unit :=
  fun w =>
    let r := draw (renders (trace w)) (timestamps w) (sentiments w) in
    let w1 := emit (Render (timestamps w) (sentiments w) r) w in
    match r with
    | None => (Returned tt, w1)
    | Some e => (Raised e, w1)
    end.

(** [timestamps.append(v)] *)
Definition timestamps_append (v : pyval) : M unit :=
  fun w => (Returned tt, mkWorld (timestamps w ++ [v]) (sentiments w) (trace w)).

(** [sentiments.append(v)] *)
Definition sentiments_append (v : pyval) : M unit :=
  fun w => (Returned tt, mkWorld (timestamps w) (sentiments w ++ [v]) (trace w)).

(** [process_message(message)] *)
Definition process_message (message : string) : M unit :=
  try_except
    (log DEBUG (RawMessage message) ;;
     message_dict <- call (json_loads message) ;;
     log INFO (ProcessedJSON message_dict) ;;
     match message_dict with
     | PyDict d =>
         let timestamp := dict_get d "timestamp" in
         let sentiment := dict_get d "sentiment" in
         if truthy timestamp && negb (is_None sentiment) then
           timestamps_append timestamp ;;
           sentiments_append sentiment ;;
           log INFO (Appended timestamp sentiment) ;;
           update_chart ;;
           log INFO (ChartUpdated message)
         else ret tt
     | _ => log ERROR (ExpectedDict (type_name message_dict))
     end)
    (fun e =>
       match e with
       | JSONDecodeError => Some (log ERROR (InvalidJSON message))
       | OtherException _ => Some (log ERROR (ErrorProcessing e))
       | _ => None
       end).

(** The point of the series a payload stands for (the MessageDecoder of
    the design document): the pair [process_message] appends to the two
    lists, [None] for a payload it drops. *)
Definition series_point (message : string) : option (pyval * pyval) :=
  match json_loads message with
  | Returned (PyDict d) =>
      let timestamp := dict_get d "timestamp" in
      let sentiment := dict_get d "sentiment" in
      if truthy timestamp && negb (is_None sentiment)
      then Some (timestamp, sentiment)
      else None
  | _ => None
  end.

(** The points of the payloads that stand for one, in the order of the
    payloads. *)
Definition series_points (messages : list string) : list (pyval * pyval) :=
  flat_map
    (fun message =>
       match series_point message with
       | Some point => [point]
       | None => []
       end)
    messages.

(** The payloads the design document calls malformed or incomplete: text
    that [json.loads] rejects, a JSON value that is no object, an object
    whose timestamp is missing or empty, an object whose sentiment is
    missing or null. *)
Inductive malformed (message : string) : Prop :=
| not_valid_json (e : exn) :
    json_loads message = Raised e -> is_Exception e = true ->
    malformed message
| not_an_object (v : pyval) :
    json_loads message = Returned v -> is_dict v = false ->
    malformed message
| no_timestamp (d : list (string * pyval)) :
    json_loads message = Returned (PyDict d) ->
    truthy (dict_get d "timestamp") = false ->
    malformed message
| no_sentiment (d : list (string * pyval)) :
    json_loads message = Returned (PyDict d) ->
    is_None (dict_get d "sentiment") = true ->
    malformed message.

(** [process_message] called on each payload in turn, whatever the calls
    return or raise. *)
Definition process_each (messages : list string) (w : world) : world :=
  fold_left (fun w1 message => snd (process_message message w1)) messages w.

(** *** The Kafka consumer

    [create_kafka_consumer] belongs to [utils.utils_consumer]; of the
    object it returns, [main] uses the iterator protocol and [close].  A
    consumer is given by what its successive [next] calls do (after the
    last one the iterator is exhausted) and by what [close] does. *)

Inductive poll : Type :=
| Message (value : string) (offset : Z)
| PollRaises (e : exn).

Record consumer : Type := mkConsumer {
  polls : list poll;
  close_raises : option exn
}.

(** [os.getenv(key)] *)
Variable getenv : string -> option string.

Variable create_kafka_consumer : string -> string -> outcome consumer.

(** [os.getenv(key, default)] *)
Definition os_getenv (key default : string) : string :=
  match getenv key with
  | Some v => v
  | None => default
  end.

(** [get_kafka_topic()] *)
Definition get_kafka_topic : M string :=
  let topic := os_getenv "PROJECT_TOPIC" "project_json" in
  log INFO (KafkaTopic topic) ;;
  ret topic.

(** [get_kafka_consumer_group_id()] *)
Definition get_kafka_consumer_group_id : M string :=
  let group_id := os_getenv "PROJECT_CONSUMER_GROUP_ID" "project_group" in
  log INFO (KafkaGroupId group_id) ;;
  ret group_id.

(** [consumer.close()] *)
Definition consumer_close (c : consumer) : M unit :=
  fun w =>
    let w1 := emit Close w in
    match close_raises c with
    | None => (Returned tt, w1)
    | Some e => (Raised e, w1)
    end.

(** [for message in consumer: body(message.value, message.offset)] *)
Fixpoint for_each (source : list poll) (body : string -> Z -> M unit) : M unit :=
  match source with
  | [] => ret tt
  | PollRaises e :: _ => raise e
  | Message value offset :: rest => body value offset ;; for_each rest body
  end.

(** The polls of a consumer that yields the given records (value and
    offset) and is then exhausted. *)
Definition records (messages : list (string * Z)) : list poll :=
  map (fun m => Message (fst m) (snd m)) messages.

(** The [for] statement of [main]. *)
Definition consume_loop (source : list poll) : M unit :=
  for_each source
    (fun message_str offset =>
       log DEBUG (ReceivedAt offset message_str) ;;
       process_message message_str).

(** The [try] statement of [main], with its handlers and its [finally]. *)
Definition consume (topic : string) (c : consumer) : M unit :=
  try_finally
    (try_except
       (consume_loop (polls c))
       (fun e =>
          match e with
          | KeyboardInterrupt => Some (log WARNING Interrupted)
          | JSONDecodeError | OtherException _ =>
              Some (log ERROR (ErrorConsuming e))
          | OtherBaseException _ => None
          end))
    (consumer_close c ;;
     log INFO (ConsumerClosed topic)).

(** [main()] *)
Definition main : M unit :=
  log INFO StartConsumer ;;
  topic <- get_kafka_topic ;;
  group_id <- get_kafka_consumer_group_id ;;
  log INFO (ConsumerTopicGroup topic group_id) ;;
  c <- call (create_kafka_consumer topic group_id) ;;
  log INFO (PollingMessages topic) ;;
  consume topic c ;;
  log INFO (EndConsumer topic group_id).

End Consumer.

(** ** A reference decoder for JSON text

    [Json.loads] follows the decoder of the [json] package ([scanner.py] and
    [decoder.py], default options): the grammar of RFC 8259 extended with
    [NaN], [Infinity] and [-Infinity], strict strings, the last of several
    equal keys winning.  The text is read as the bytes of its UTF-8
    encoding.  A rejection is a [JSONDecodeError], but for an integer
    literal of more than 4300 digits, which the conversion to [int] turns
    down with a [ValueError] (Python 3.11 and later).  The interpreter's
    limit on nesting depth is not modelled. *)

Module Json.

Definition is_ws (c : ascii) : bool :=
  match c with
  | " "%char | "009"%char | "010"%char | "013"%char => true
  | _ => false
  end.

(** [WHITESPACE.match(s, idx).end()] *)
Fixpoint skip_ws (s : string) : string :=
  match s with
  | String c rest => if is_ws c then skip_ws rest else s
  | EmptyString => s
  end.

(** [s.startswith(prefix)], giving what follows the prefix. *)
Fixpoint strip_prefix (prefix s : string) : option string :=
  match prefix, s with
  | EmptyString, _ => Some s
  | String p prefix', String c s' =>
      if Ascii.eqb p c then strip_prefix prefix' s' else None
  | String _ _, EmptyString => None
  end.

Definition digit_of (c : ascii) : option Z :=
  let n := Z.of_N (N_of_ascii c) in
  if (48 <=? n) && (n <=? 57) then Some (n - 48) else None.

Definition hex_of (c : ascii) : option Z :=
  let n := Z.of_N (N_of_ascii c) in
  if (48 <=? n) && (n <=? 57) then Some (n - 48)
  else if (65 <=? n) && (n <=? 70) then Some (n - 55)
  else if (97 <=? n) && (n <=? 102) then Some (n - 87)
  else None.

(** The longest run of decimal digits at the head of [s]: its digits,
    most significant first, and what follows. *)
Fixpoint take_digits (s : string) : list Z * string :=
  match s with
  | String c rest =>
      match digit_of c with
      | Some d => let (ds, r) := take_digits rest in (d :: ds, r)
      | None => ([], s)
      end
  | EmptyString => ([], s)
  end.

Definition Z_of_digits (ds : list Z) : Z :=
  fold_left (fun acc d => 10 * acc + d) ds 0.

(** [_decode_uXXXX]: four hexadecimal digits. *)
Definition decode_uXXXX (s : string) : option (Z * string) :=
  match s with
  | String a (String b (String c (String d rest))) =>
      match hex_of a, hex_of b, hex_of c, hex_of d with
      | Some x, Some y, Some z, Some t =>
          Some (((x * 16 + y) * 16 + z) * 16 + t, rest)
      | _, _, _, _ => None
      end
  | _ => None
  end.

Definition byte (n : Z) : ascii := ascii_of_N (Z.to_N n).

(** [chr(u)], in UTF-8 (a lone surrogate takes three bytes). *)
Definition chr (u : Z) : string :=
  if u <? 128 then String (byte u) EmptyString
  else if u <? 2048 then
    String (byte (192 + u / 64)) (String (byte (128 + u mod 64)) EmptyString)
  else if u <? 65536 then
    String (byte (224 + u / 4096))
      (String (byte (128 + (u / 64) mod 64))
         (String (byte (128 + u mod 64)) EmptyString))
  else
    String (byte (240 + u / 262144))
      (String (byte (128 + (u / 4096) mod 64))
         (String (byte (128 + (u / 64) mod 64))
            (String (byte (128 + u mod 64)) EmptyString))).

(** The table [BACKSLASH]. *)
Definition backslash (esc : ascii) : option ascii :=
  match esc with
  | "034"%char => Some "034"%char
  | "\"%char => Some "\"%char
  | "/"%char => Some "/"%char
  | "b"%char => Some "008"%char
  | "f"%char => Some "012"%char
  | "n"%char => Some "010"%char
  | "r"%char => Some "013"%char
  | "t"%char => Some "009"%char
  | _ => None
  end.

(** [py_scanstring(s, end)], from just after the opening quote: the
    decoded string and what follows the closing quote. *)
Fixpoint scanstring (fuel : nat) (s : string) : option (string * string) :=
  match fuel with
  | O => None
  | S fuel' =>
      match s with
      | EmptyString => None
      | String "034" rest => Some (EmptyString, rest)
      | String "\" EmptyString => None
      | String "\" (String "u" rest) =>
          match decode_uXXXX rest with
          | None => None
          | Some (uni, rest1) =>
              let low :=
                if (55296 <=? uni) && (uni <=? 56319) then
                  match strip_prefix "\u" rest1 with
                  | Some rest2 => Some (decode_uXXXX rest2)
                  | None => None
                  end
                else None in
              match low with
              | Some None => None
              | Some (Some (uni2, rest3)) =>
                  if (56320 <=? uni2) && (uni2 <=? 57343) then
                    match scanstring fuel' rest3 with
                    | Some (tail, r) =>
                        Some (chr (65536 + ((uni - 55296) * 1024 + (uni2 - 56320)))
                                ++ tail, r)%string
                    | None => None
                    end
                  else
                    match scanstring fuel' rest1 with
                    | Some (tail, r) => Some (chr uni ++ tail, r)%string
                    | None => None
                    end
              | None =>
                  match scanstring fuel' rest1 with
                  | Some (tail, r) => Some (chr uni ++ tail, r)%string
                  | None => None
                  end
              end
          end
      | String "\" (String esc rest) =>
          match backslash esc with
          | Some c =>
              match scanstring fuel' rest with
              | Some (tail, r) => Some (String c tail, r)
              | None => None
              end
          | None => None
          end
      | String c rest =>
          if (N_of_ascii c <? 32)%N then None
          else
            match scanstring fuel' rest with
            | Some (tail, r) => Some (String c tail, r)
            | None => None
            end
      end
  end.


(** [float(text)] for the decimal [m * 10^e] with [0 <= m]: the nearest
    binary64, ties to even. *)
Definition float_of_decimal (negative : bool) (m e : Z) : spec_float :=
  match m with
  | Z0 => S754_zero negative
  | Zpos p =>
      if 0 <=? e then binary_round 53 1024 negative (Z.to_pos (m * 10 ^ e)) 0
      else
        let '(q, e', l) := SFdiv_core_binary 53 1024 m 0 (10 ^ (- e)) 0 in
        binary_round_aux 53 1024 negative q e' l
  | Zneg _ => S754_nan
  end.

(** The most digits [int(text)] converts
    ([sys.int_info.default_max_str_digits]). *)
Definition max_str_digits : Z := 4300.

(** [NUMBER_RE.match(s, idx)] and the conversion of its groups: an integer
    part, an optional fraction, an optional exponent.  The conversion of a
    matched integer raises when it has too many digits. *)
Definition match_number (s : string) : option (outcome pyval * string) :=
  let (negative, s1) :=
    match s with
    | String "-" r => (true, r)
    | _ => (false, s)
    end in
  match s1 with
  | EmptyString => None
  | String c r =>
      match digit_of c with
      | None => None
      | Some d =>
          let (integer, s2) := if d =? 0 then ([0], r) else take_digits s1 in
          let (frac, s3) :=
            match s2 with
            | String "." r2 =>
                match take_digits r2 with
                | ([], _) => ([], s2)
                | (ds, r3) => (ds, r3)
                end
            | _ => ([], s2)
            end in
          let (exp, s4) :=
            match s3 with
            | String x r3 =>
                if Ascii.eqb x "e" || Ascii.eqb x "E" then
                  let (sign, r4) :=
                    match r3 with
                    | String "-" r => (-1, r)
                    | String "+" r => (1, r)
                    | _ => (1, r3)
                    end in
                  match take_digits r4 with
                  | ([], _) => (None, s3)
                  | (ds, r5) => (Some (sign * Z_of_digits ds), r5)
                  end
                else (None, s3)
            | EmptyString => (None, s3)
            end in
          match frac, exp with
          | [], None =>
              if max_str_digits <? Z.of_nat (List.length integer)
              then Some (Raised (OtherException "ValueError"), s4)
              else
                let n := Z_of_digits integer in
                Some (Returned (PyInt (if negative then - n else n)), s4)
          | _, _ =>
              let e := match exp with Some x => x | None => 0 end in
              Some (Returned
                      (PyFloat (float_of_decimal negative
                                  (Z_of_digits (integer ++ frac))
                                  (e - Z.of_nat (List.length frac)))), s4)
          end
      end
  end.

Definition scanner : Type := string -> outcome (pyval * string).

(** The loop of [JSONArray], from the first character of an element. *)
Fixpoint array_items (scan_once : scanner) (fuel : nat) (s : string)
    (values : list pyval) : outcome (pyval * string) :=
  match fuel with
  | O => Raised (OtherException "RecursionError")
  | S fuel' =>
      match scan_once s with
      | Raised e => Raised e
      | Returned (value, s1) =>
          match skip_ws s1 with
          | String "]" r => Returned (PyList (values ++ [value]), r)
          | String "," r =>
              array_items scan_once fuel' (skip_ws r) (values ++ [value])
          | _ => Raised JSONDecodeError
          end
      end
  end.

(** [JSONArray], from just after the opening bracket. *)
Definition JSONArray (scan_once : scanner) (s : string)
  : outcome (pyval * string) :=
  match skip_ws s with
  | String "]" r => Returned (PyList [], r)
  | s1 => array_items scan_once (S (String.length s1)) s1 []
  end.

(** The loop of [JSONObject], from just after the opening quote of a
    key. *)
Fixpoint object_pairs (scan_once : scanner) (fuel : nat) (s : string)
    (pairs : list (string * pyval)) : outcome (pyval * string) :=
  match fuel with
  | O => Raised (OtherException "RecursionError")
  | S fuel' =>
      match scanstring (S (String.length s)) s with
      | None => Raised JSONDecodeError
      | Some (key, s1) =>
          match skip_ws s1 with
          | String ":" r =>
              match scan_once (skip_ws r) with
              | Raised e => Raised e
              | Returned (value, s2) =>
                  match skip_ws s2 with
                  | String "}" r1 =>
                      Returned (PyDict (dict_set pairs key value), r1)
                  | String "," r1 =>
                      match skip_ws r1 with
                      | String "034" r2 =>
                          object_pairs scan_once fuel' r2
                            (dict_set pairs key value)
                      | _ => Raised JSONDecodeError
                      end
                  | _ => Raised JSONDecodeError
                  end
              end
          | _ => Raised JSONDecodeError
          end
      end
  end.

(** [JSONObject], from just after the opening brace. *)
Definition JSONObject (scan_once : scanner) (s : string)
  : outcome (pyval * string) :=
  match skip_ws s with
  | String "}" r => Returned (PyDict [], r)
  | String "034" r => object_pairs scan_once (S (String.length r)) r []
  | _ => Raised JSONDecodeError
  end.

Definition constant (s : string) : option (outcome pyval * string) :=
  match strip_prefix "null" s with
  | Some r => Some (Returned PyNone, r)
  | None =>
  match strip_prefix "true" s with
  | Some r => Some (Returned (PyBool true), r)
  | None =>
  match strip_prefix "false" s with
  | Some r => Some (Returned (PyBool false), r)
  | None =>
  match match_number s with
  | Some res => Some res
  | None =>
  match strip_prefix "NaN" s with
  | Some r => Some (Returned (PyFloat S754_nan), r)
  | None =>
  match strip_prefix "Infinity" s with
  | Some r => Some (Returned (PyFloat (S754_infinity false)), r)
  | None =>
  match strip_prefix "-Infinity" s with
  | Some r => Some (Returned (PyFloat (S754_infinity true)), r)
  | None => None
  end end end end end end end.

(** [scan_once(string, idx)]; [depth] bounds the nesting. *)
Fixpoint scan_once (depth : nat) (s : string) : outcome (pyval * string) :=
  match depth with
  | O => Raised (OtherException "RecursionError")
  | S depth' =>
      match s with
      | String "034" r =>
          match scanstring (S (String.length r)) r with
          | Some (str, r1) => Returned (PyStr str, r1)
          | None => Raised JSONDecodeError
          end
      | String "{" r => JSONObject (scan_once depth') r
      | String "[" r => JSONArray (scan_once depth') r
      | _ =>
          match constant s with
          | Some (Returned value, r) => Returned (value, r)
          | Some (Raised e, _) => Raised e
          | None => Raised JSONDecodeError
          end
      end
  end.

(** [json.loads(s)] *)
Definition loads (s : string) : outcome pyval :=
  match scan_once (S (String.length s)) (skip_ws s) with
  | Raised e => Raised e
  | Returned (obj, rest) =>
      match skip_ws rest with
      | EmptyString => Returned obj
      | _ => Raised JSONDecodeError
      end
  end.

(** Payloads are written with an apostrophe where the text has a
    quotation mark. *)
Fixpoint text (s : string) : string :=
  match s with
  | EmptyString => EmptyString
  | String c rest =>
      String (if Ascii.eqb c "'" then "034"%char else c) (text rest)
  end.

End Json.

(** ** Concrete surroundings, for running the module *)

(** A display surface that always draws. *)
Definition draw_ok (n : nat) (xs ys : list pyval) : option exn := None.

(** A display surface that cannot draw: every redraw raises [TclError]. *)
Definition draw_fails (n : nat) (xs ys : list pyval) : option exn :=
  Some (OtherException "TclError").

(** No variable is set in the environment. *)
Definition no_env (key : string) : option string := None.

(** A broker that hands out a consumer yielding the given polls. *)
Definition broker (source : list poll) (topic group_id : string)
  : outcome consumer :=
  Returned (mkConsumer source None).

(** The payloads of the scenarios of the design document. *)
Definition scenario_A : string :=
  Json.text "{'timestamp':'2025-01-29 14:35:20','sentiment':0.9}".

Definition scenario_B : string := "not json".

Definition scenario_C : string := Json.text "{'timestamp':'t1'}".

Definition scenario_D1 : string :=
  Json.text "{'timestamp':'t1','sentiment':0.5}".

Definition scenario_D2 : string :=
  Json.text "{'timestamp':'t2','sentiment':-0.3}".

(** The example of the module's docstring, with its two more keys and a
    sentiment far from the usual range. *)
Definition eve_message : string :=
  Json.text "{'message': 'I love Python!', 'author': 'Eve', 'sentiment': -12345678901234567890, 'timestamp': '2025-01-29 14:35:20'}".

(** A payload that is off the wire format in both fields. *)
Definition untyped_message : string :=
  Json.text "{'timestamp': 5, 'sentiment': 'high'}".

(** [main()] with a display surface that cannot draw, on a topic that holds
    the two messages of scenario D. *)
Definition run_without_display : outcome unit * world :=
  main Json.loads draw_fails no_env
    (broker (records [(scenario_D1, 0); (scenario_D2, 1)])) initial.

(** [main()] on a consumer whose second poll fails. *)
Definition run_with_failing_poll : outcome unit * world :=
  main Json.loads draw_ok no_env
    (broker [Message scenario_D1 0;
             PollRaises (OtherException "KafkaError");
             Message scenario_D2 1]) initial.

(** The latest redraw that returned: the series of the last frame the
    display surface is known to have drawn in full. *)
Fixpoint last_drawn (tr : list event) : option (list pyval * list pyval) :=
  match tr with
  | [] => None
  | ev :: rest =>
      match last_drawn rest with
      | Some frame => Some frame
      | None =>
          match ev with
          | Render xs ys None => Some (xs, ys)
          | _ => None
          end
      end
  end.

(** A redraw was handed nothing but the beginning of the lists [ts] and
    [ss], as many values of the one as of the other. *)
Definition shows_prefix (ts ss : list pyval) (ev : event) : Prop :=
  match ev with
  | Render xs ys _ =>
      List.length xs = List.length ys /\
      (exists more, ts = xs ++ more) /\
      (exists more, ss = ys ++ more)
  | _ => True
  end.

(** A display surface that draws its first frame and fails from then on. *)
Definition draw_once (n : nat) (xs ys : list pyval) : option exn :=
  match n with
  | O => None
  | S _ => Some (OtherException "TclError")
  end.

(** The loop over the two messages of scenario D on that surface. *)
Definition run_with_display_lost : outcome unit * world :=
  consume_loop Json.loads draw_once
    (records [(scenario_D1, 0); (scenario_D2, 1)]) initial.

(** A redraw that hands pyplot as many x values as y values. *)
Definition balanced_render (ev : event) : bool :=
  match ev with
  | Render xs ys _ => Nat.eqb (List.length xs) (List.length ys)
  | _ => true
  end.

(** A consumer whose first record is malformed and whose second poll
    fails. *)
Definition failing_consumer : consumer :=
  mkConsumer
    [Message scenario_B 0; PollRaises (OtherException "KafkaError");
     Message scenario_A 1] None.

(** A consumer that is interrupted after its first record. *)
Definition interrupted_consumer : consumer :=
  mkConsumer
    [Message scenario_D1 0; PollRaises KeyboardInterrupt;
     Message scenario_D2 1] None.

(** A consumer whose second poll ends the interpreter. *)
Definition exiting_consumer : consumer :=
  mkConsumer
    [Message scenario_D1 0; PollRaises (OtherBaseException "SystemExit")]
    None.

(** A consumer that yields the two records of scenario D, a malformed one
    in between, and is then exhausted. *)
Definition finite_consumer : consumer :=
  mkConsumer
    (records [(scenario_D1, 0); (scenario_B, 1); (scenario_D2, 2)]) None.

(** A display surface on which the user interrupts the first redraw. *)
Definition draw_interrupted (n : nat) (xs ys : list pyval) : option exn :=
  Some KeyboardInterrupt.

(** A broker that cannot be reached. *)
Definition no_broker (topic group_id : string) : outcome consumer :=
  Raised (OtherException "NoBrokersAvailable").

(** * Properties *)

Lemma renders_app (a b : list event) :
  renders (a ++ b) = (renders a + renders b)%nat.
Proof.
  induction a as [|ev a IH]; simpl; [reflexivity|].
  destruct ev; simpl; rewrite IH; reflexivity.
Qed.

Lemma closes_app (a b : list event) :
  closes (a ++ b) = (closes a + closes b)%nat.
Proof.
  induction a as [|ev a IH]; simpl; [reflexivity|].
  destruct ev; simpl; rewrite IH; reflexivity.
Qed.

Lemma logs_no_render (evs : list event) :
  forallb is_log evs = true -> renders evs = O.
Proof.
  induction evs as [|ev evs IH]; simpl; [reflexivity|].
  destruct ev; simpl; intros H; try discriminate; auto.
Qed.

Lemma logs_no_close (evs : list event) :
  forallb is_log evs = true -> closes evs = O.
Proof.
  induction evs as [|ev evs IH]; simpl; [reflexivity|].
  destruct ev; simpl; intros H; try discriminate; auto.
Qed.

Lemma last_render_app (a b : list event) :
  last_render (a ++ b) =
  match last_render b with
  | Some shown => Some shown
  | None => last_render a
  end.
Proof.
  induction a as [|ev a IH]; simpl.
  - destruct (last_render b); reflexivity.
  - rewrite IH. destruct (last_render b); reflexivity.
Qed.

Lemma logs_last_render (evs : list event) :
  forallb is_log evs = true -> last_render evs = None.
Proof.
  induction evs as [|ev evs IH]; simpl; [reflexivity|].
  destruct ev; simpl; intros H; try discriminate.
  rewrite (IH H). reflexivity.
Qed.

Ltac run :=
  unfold process_message, try_except, bind, call, log, ret, raise,
    update_chart, timestamps_append, sentiments_append, emit; simpl.

Section Properties.

Variable json_loads : string -> outcome pyval.
Variable draw : nat -> list pyval -> list pyval -> option exn.

Local Abbreviation process_message := (process_message json_loads draw).
Local Abbreviation series_point := (series_point json_loads).
Local Abbreviation consume_loop := (consume_loop json_loads draw).
Local Abbreviation consume := (consume json_loads draw).

(** What one call does to the lists and to the trace, by the point the
    payload stands for. *)
Lemma process_message_dropped (message : string) (w : world) :
  series_point message = None ->
  let w1 := snd (process_message message w) in
  timestamps w1 = timestamps w /\
  sentiments w1 = sentiments w /\
  exists evs, trace w1 = trace w ++ evs /\ forallb is_log evs = true.
Proof.
  unfold series_point. run.
  destruct (json_loads message) as [v|e].
  - destruct v; simpl; intros H;
      try (repeat split; try reflexivity;
           eexists; rewrite <- !app_assoc; simpl; split; reflexivity).
    destruct (truthy (dict_get items "timestamp")
              && negb (is_None (dict_get items "sentiment"))); [discriminate|].
    simpl. repeat split; try reflexivity.
    eexists; rewrite <- !app_assoc; simpl; split; reflexivity.
  - intros _. destruct e; simpl; repeat split; try reflexivity;
      eexists; rewrite <- ?app_assoc; simpl; split; reflexivity.
Qed.

Lemma process_message_appended (message : string) (w : world) t s :
  series_point message = Some (t, s) ->
  let w1 := snd (process_message message w) in
  let r := draw (renders (trace w)) (timestamps w ++ [t]) (sentiments w ++ [s]) in
  timestamps w1 = timestamps w ++ [t] /\
  sentiments w1 = sentiments w ++ [s] /\
  exists pre post,
    trace w1 = trace w ++ pre ++ Render (timestamps w1) (sentiments w1) r :: post /\
    forallb is_log pre = true /\ forallb is_log post = true.
Proof.
  unfold series_point. run.
  destruct (json_loads message) as [v|e]; [|discriminate].
  destruct v; try discriminate.
  destruct (truthy (dict_get items "timestamp")
            && negb (is_None (dict_get items "sentiment"))); [|discriminate].
  intros H. injection H as <- <-. simpl.
  rewrite !renders_app. simpl. rewrite !Nat.add_0_r.
  destruct (draw _ _ _) as [e|]; simpl.
  - destruct e; simpl; repeat split; try reflexivity;
      eexists [_; _; _], _; rewrite <- ?app_assoc; simpl;
      (split; [reflexivity|split; reflexivity]).
  - repeat split; try reflexivity.
    eexists [_; _; _], _; rewrite <- ?app_assoc; simpl.
    split; [reflexivity|split; reflexivity].
Qed.

Local Abbreviation series_points := (series_points json_loads).
Local Abbreviation malformed := (malformed json_loads).
Local Abbreviation process_each := (process_each json_loads draw).

Lemma accepted_series_point (message : string) (d : list (string * pyval)) :
  json_loads message = Returned (PyDict d) ->
  truthy (dict_get d "timestamp") = true ->
  is_None (dict_get d "sentiment") = false ->
  series_point message =
    Some (dict_get d "timestamp", dict_get d "sentiment").
Proof.
  intros Hj Ht Hs. unfold series_point.
  rewrite Hj, Ht, Hs. reflexivity.
Qed.

Lemma malformed_series_point (message : string) :
  malformed message -> series_point message = None.
Proof.
  unfold series_point.
  intros [e Hj _|v Hj Hv|d Hj Ht|d Hj Hs]; rewrite Hj.
  - reflexivity.
  - destruct v; try reflexivity; discriminate.
  - rewrite Ht. reflexivity.
  - rewrite Hs, andb_false_r. reflexivity.
Qed.

(** A call returns, unless [json.loads] or the redraw raises something
    that is no [Exception]. *)
Lemma process_message_dropped_returns (message : string) (w : world) :
  malformed message -> fst (process_message message w) = Returned tt.
Proof.
  run. intros [e Hj He|v Hj Hv|d Hj Ht|d Hj Hs]; rewrite Hj; simpl.
  - destruct e; try discriminate; reflexivity.
  - destruct v; try discriminate; reflexivity.
  - rewrite Ht. reflexivity.
  - rewrite Hs, andb_false_r. reflexivity.
Qed.

Lemma process_message_appended_outcome (message : string) (w : world) t s :
  series_point message = Some (t, s) ->
  fst (process_message message w) =
    match draw (renders (trace w)) (timestamps w ++ [t]) (sentiments w ++ [s]) with
    | Some e => if is_Exception e then Returned tt else Raised e
    | None => Returned tt
    end.
Proof.
  unfold series_point. run.
  destruct (json_loads message) as [v|e]; [|discriminate].
  destruct v; try discriminate.
  destruct (truthy (dict_get items "timestamp")
            && negb (is_None (dict_get items "sentiment"))); [|discriminate].
  intros H. injection H as <- <-. simpl.
  rewrite !renders_app. simpl. rewrite !Nat.add_0_r.
  destruct (draw _ _ _) as [e|]; simpl; [|reflexivity].
  destruct e; reflexivity.
Qed.

Lemma store_snoc (w w1 : world) t s :
  List.length (timestamps w) = List.length (sentiments w) ->
  timestamps w1 = timestamps w ++ [t] ->
  sentiments w1 = sentiments w ++ [s] ->
  store w1 = store w ++ [(t, s)].
Proof.
  unfold store. intros Hlen -> ->.
  generalize dependent (sentiments w).
  induction (timestamps w) as [|x xs IH]; intros [|y ys] Hlen;
    simpl in *; try discriminate; [reflexivity|].
  rewrite IH by congruence. reflexivity.
Qed.

(** C1.  A payload that [json.loads] decodes to an object with a non-empty
    timestamp (one that is true as a condition, which for a string means
    non-empty) and a sentiment other than [None] makes [process_message]
    append exactly that timestamp and that sentiment: each list grows by
    one, its new last element is the decoded value, the series grows by
    the decoded point, and [update_chart] runs exactly once. *)
Theorem process_message_appends_point_and_renders_once
    (message : string) (d : list (string * pyval)) (w : world) :
  json_loads message = Returned (PyDict d) ->
  truthy (dict_get d "timestamp") = true ->
  is_None (dict_get d "sentiment") = false ->
  let point := (dict_get d "timestamp", dict_get d "sentiment") in
  let w1 := snd (process_message message w) in
  timestamps w1 = timestamps w ++ [fst point] /\
  sentiments w1 = sentiments w ++ [snd point] /\
  List.length (timestamps w1) = S (List.length (timestamps w)) /\
  List.length (sentiments w1) = S (List.length (sentiments w)) /\
  (List.length (timestamps w) = List.length (sentiments w) ->
   store w1 = store w ++ [point] /\
   List.length (store w1) = S (List.length (store w)) /\
   last (store w1) (PyNone, PyNone) = point) /\
  renders (trace w1) = S (renders (trace w)).
Proof.
  intros Hj Ht Hs point w1.
  pose proof (accepted_series_point message d Hj Ht Hs) as Hp.
  destruct (process_message_appended message w _ _ Hp)
    as (Hts & Hss & pre & post & Htr & Hpre & Hpost).
  fold w1 in Hts, Hss, Htr.
  repeat split.
  - exact Hts.
  - exact Hss.
  - rewrite Hts, length_app. simpl. lia.
  - rewrite Hss, length_app. simpl. lia.
  - apply (store_snoc w w1); assumption.
  - rewrite (store_snoc w w1 _ _ H Hts Hss), length_app. simpl. lia.
  - rewrite (store_snoc w w1 _ _ H Hts Hss). apply last_last.
  - rewrite Htr, !renders_app. simpl.
    rewrite (logs_no_render _ Hpre), (logs_no_render _ Hpost). lia.
Qed.

Lemma consume_loop_cons (message : string) (offset : Z)
    (rest : list poll) (w : world) :
  consume_loop (Message message offset :: rest) w =
    match process_message message
            (emit (Logged DEBUG (ReceivedAt offset message)) w) with
    | (Returned _, w1) => consume_loop rest w1
    | (Raised e, w1) => (Raised e, w1)
    end.
Proof. reflexivity. Qed.

(** C3.  A malformed or incomplete payload (text that [json.loads]
    rejects, a JSON value that is no object, a missing or empty timestamp,
    a missing or null sentiment) leaves both lists as they were, hence the
    length of the series, runs no redraw, and [process_message] returns:
    the [for] loop of [main] goes on to poll the next message. *)
Theorem malformed_payload_is_skipped
    (message : string) (offset : Z) (rest : list poll) (w : world) :
  malformed message ->
  let w0 := emit (Logged DEBUG (ReceivedAt offset message)) w in
  let w1 := snd (process_message message w0) in
  fst (process_message message w0) = Returned tt /\
  timestamps w1 = timestamps w /\
  sentiments w1 = sentiments w /\
  List.length (store w1) = List.length (store w) /\
  renders (trace w1) = renders (trace w) /\
  consume_loop (Message message offset :: rest) w = consume_loop rest w1.
Proof.
  intros Hm w0 w1.
  pose proof (process_message_dropped_returns message w0 Hm) as Hr.
  destruct (process_message_dropped message w0 (malformed_series_point message Hm))
    as (Hts & Hss & evs & Htr & Hevs).
  fold w1 in Hts, Hss, Htr.
  repeat split.
  - exact Hr.
  - exact Hts.
  - exact Hss.
  - unfold store. rewrite Hts, Hss. reflexivity.
  - rewrite Htr. unfold w0, emit. simpl. rewrite !renders_app.
    rewrite (logs_no_render _ Hevs). simpl. lia.
  - rewrite consume_loop_cons. fold w0. unfold w1.
    destruct (process_message message w0) as [r w2]. simpl in Hr.
    rewrite Hr. reflexivity.
Qed.

(** C9.  Keys other than the two read are ignored and the sentiment is not
    bounded: whatever else the object holds, a non-empty timestamp with a
    sentiment that is any [int] or any [float] (however large, negative,
    infinite or not a number) is appended as it was decoded. *)
Theorem any_number_is_appended_as_is
    (message : string) (d : list (string * pyval)) (w : world) :
  json_loads message = Returned (PyDict d) ->
  truthy (dict_get d "timestamp") = true ->
  (exists n, dict_get d "sentiment" = PyInt n) \/
  (exists x, dict_get d "sentiment" = PyFloat x) ->
  let w1 := snd (process_message message w) in
  series_point message = Some (dict_get d "timestamp", dict_get d "sentiment") /\
  timestamps w1 = timestamps w ++ [dict_get d "timestamp"] /\
  sentiments w1 = sentiments w ++ [dict_get d "sentiment"].
Proof.
  intros Hj Ht Hnum w1.
  assert (Hs : is_None (dict_get d "sentiment") = false)
    by (destruct Hnum as [[n ->]|[x ->]]; reflexivity).
  pose proof (accepted_series_point message d Hj Ht Hs) as Hp.
  destruct (process_message_appended message w _ _ Hp) as (Hts & Hss & _).
  repeat split; assumption.
Qed.

Lemma process_message_same_length (message : string) (w : world) :
  List.length (timestamps w) = List.length (sentiments w) ->
  let w1 := snd (process_message message w) in
  List.length (timestamps w1) = List.length (sentiments w1).
Proof.
  intros Hlen w1.
  destruct (series_point message) as [[t s]|] eqn:Hp.
  - destruct (process_message_appended message w _ _ Hp) as (Hts & Hss & _).
    fold w1 in Hts, Hss. rewrite Hts, Hss, !length_app. simpl. lia.
  - destruct (process_message_dropped message w Hp) as (Hts & Hss & _).
    fold w1 in Hts, Hss. rewrite Hts, Hss. exact Hlen.
Qed.

(** C10.  The two lists have the same length after every call of
    [process_message]: whatever payloads the calls are given, starting
    from the lists as the module creates them, [timestamps] and
    [sentiments] are equally long, so every point of the series has both
    its values. *)
Theorem timestamps_and_sentiments_have_equal_length (messages : list string) :
  List.length (timestamps (process_each messages initial)) =
  List.length (sentiments (process_each messages initial)).
Proof.
  unfold process_each.
  assert (H : List.length (timestamps initial) = List.length (sentiments initial))
    by reflexivity.
  revert H. generalize initial.
  induction messages as [|message messages IH]; intros w H; simpl.
  - exact H.
  - apply IH. apply process_message_same_length. exact H.
Qed.

Lemma consume_loop_app (a b : list poll) (w : world) :
  consume_loop (a ++ b) w =
    match consume_loop a w with
    | (Returned _, w1) => consume_loop b w1
    | (Raised e, w1) => (Raised e, w1)
    end.
Proof.
  revert w. induction a as [|p a IH]; intros w; [reflexivity|].
  destruct p as [message offset|e]; [|reflexivity].
  simpl app. rewrite !consume_loop_cons.
  destruct (process_message message _) as [[u|e] w1]; [apply IH|reflexivity].
Qed.

Lemma series_points_app (a b : list string) :
  series_points (a ++ b) = series_points a ++ series_points b.
Proof. apply flat_map_app. Qed.

Lemma combine_fst_snd (points : list (pyval * pyval)) :
  combine (map fst points) (map snd points) = points.
Proof.
  induction points as [|[t s] points IH]; simpl; [reflexivity|].
  rewrite IH. reflexivity.
Qed.

(** The loop over a run of records that it gets through: the lists grow
    by the points of the payloads, in their order, and the latest redraw,
    if the run has one, was handed the lists as they now are. *)
Lemma consume_loop_records (messages : list (string * Z)) :
  forall w w1 : world,
    consume_loop (records messages) w = (Returned tt, w1) ->
    let points := series_points (map fst messages) in
    timestamps w1 = timestamps w ++ map fst points /\
    sentiments w1 = sentiments w ++ map snd points /\
    exists evs,
      trace w1 = trace w ++ evs /\
      match points with
      | [] => last_render evs = None
      | _ :: _ =>
          exists raised,
            last_render evs = Some (timestamps w1, sentiments w1, raised) /\
            ((forall n xs ys, draw n xs ys = None) -> raised = None)
      end.
Proof.
  induction messages as [|[message offset] messages IH]; intros w w1 Hrun.
  - injection Hrun as <-. simpl. rewrite !app_nil_r.
    repeat split. exists []. rewrite app_nil_r. split; reflexivity.
  - simpl records in Hrun. rewrite consume_loop_cons in Hrun. simpl fst in Hrun.
    set (w0 := emit (Logged DEBUG (ReceivedAt offset message)) w) in *.
    destruct (process_message message w0) as [[u|e] w2] eqn:Hcall;
      [|discriminate].
    specialize (IH w2 w1 Hrun). cbv zeta in IH.
    destruct IH as (Hts & Hss & evs & Htr & Hlast).
    cbv zeta. simpl map. unfold series_points. simpl flat_map.
    fold (series_points (map fst messages)) in *.
    destruct (series_point message) as [[t s]|] eqn:Hp.
    + destruct (process_message_appended message w0 t s Hp)
        as (Hts2 & Hss2 & pre & post & Htr2 & Hpre & Hpost).
      rewrite Hcall in Hts2, Hss2, Htr2. simpl in Hts2, Hss2, Htr2.
      simpl app. simpl map.
      split; [rewrite Hts, Hts2, <- app_assoc; reflexivity|].
      split; [rewrite Hss, Hss2, <- app_assoc; reflexivity|].
      exists ((Logged DEBUG (ReceivedAt offset message) :: pre)
                ++ (Render (timestamps w2) (sentiments w2)
                      (draw (renders (trace w0)) (timestamps w0 ++ [t])
                         (sentiments w0 ++ [s])) :: post) ++ evs).
      split.
      { rewrite Htr, Htr2. unfold w0, emit. simpl.
        rewrite <- !app_assoc. reflexivity. }
      rewrite !last_render_app.
      destruct (series_points (map fst messages)) as [|point points].
      * rewrite Hlast. simpl. rewrite (logs_last_render _ Hpost).
        simpl in Hts, Hss. rewrite app_nil_r in Hts, Hss.
        rewrite Hts, Hss. eexists. split; [reflexivity|].
        intros Hdraw. apply Hdraw.
      * destruct Hlast as (raised & -> & Hraised).
        exists raised. split; [reflexivity|exact Hraised].
    + destruct (process_message_dropped message w0 Hp)
        as (Hts2 & Hss2 & evs2 & Htr2 & Hevs2).
      rewrite Hcall in Hts2, Hss2, Htr2. simpl in Hts2, Hss2, Htr2.
      simpl app.
      split; [rewrite Hts, Hts2; reflexivity|].
      split; [rewrite Hss, Hss2; reflexivity|].
      exists ((Logged DEBUG (ReceivedAt offset message) :: evs2) ++ evs).
      split.
      { rewrite Htr, Htr2. unfold w0, emit. simpl.
        rewrite <- !app_assoc. reflexivity. }
      rewrite last_render_app.
      destruct (series_points (map fst messages)) as [|point points].
      * rewrite Hlast. simpl. rewrite (logs_last_render _ Hevs2). reflexivity.
      * destruct Hlast as (raised & -> & Hraised).
        exists raised. split; [reflexivity|exact Hraised].
Qed.

Lemma last_render_none_last_drawn (tr : list event) :
  last_render tr = None -> last_drawn tr = None.
Proof.
  induction tr as [|ev tr IH]; simpl; [reflexivity|].
  destruct (last_render tr); [discriminate|].
  rewrite (IH eq_refl). destruct ev; try discriminate; reflexivity.
Qed.

Lemma last_render_returned_last_drawn (tr : list event) xs ys :
  last_render tr = Some (xs, ys, None) -> last_drawn tr = Some (xs, ys).
Proof.
  induction tr as [|ev tr IH]; simpl; [discriminate|].
  destruct (last_render tr) as [shown|] eqn:Hrest.
  - intros H. injection H as ->. rewrite (IH eq_refl). reflexivity.
  - rewrite (last_render_none_last_drawn tr Hrest).
    destruct ev; try discriminate.
    intros H. injection H as -> -> ->. reflexivity.
Qed.

Lemma shows_prefix_grows (ts ss a b : list pyval) (ev : event) :
  shows_prefix ts ss ev -> shows_prefix (ts ++ a) (ss ++ b) ev.
Proof.
  destruct ev; simpl; auto.
  intros (Hlen & (mx & ->) & (my & ->)).
  split; [exact Hlen|].
  split; eexists; rewrite <- app_assoc; reflexivity.
Qed.

Lemma logs_show_prefix (ts ss : list pyval) (evs : list event) :
  forallb is_log evs = true -> Forall (shows_prefix ts ss) evs.
Proof.
  induction evs as [|ev evs IH]; simpl; intros H; constructor.
  - destruct ev; try discriminate; exact I.
  - apply IH. destruct ev; try discriminate; exact H.
Qed.

(** One call keeps every redraw of the trace a beginning of the lists. *)
Lemma process_message_shows_prefix (message : string) (w : world) :
  List.length (timestamps w) = List.length (sentiments w) ->
  Forall (shows_prefix (timestamps w) (sentiments w)) (trace w) ->
  let w1 := snd (process_message message w) in
  List.length (timestamps w1) = List.length (sentiments w1) /\
  Forall (shows_prefix (timestamps w1) (sentiments w1)) (trace w1).
Proof.
  intros Hlen Hall w1.
  split; [apply process_message_same_length; exact Hlen|].
  destruct (series_point message) as [[t s]|] eqn:Hp.
  - destruct (process_message_appended message w t s Hp)
      as (Hts & Hss & pre & post & Htr & Hpre & Hpost).
    fold w1 in Hts, Hss, Htr. rewrite Htr.
    apply Forall_app. split.
    + rewrite Hts, Hss.
      apply (Forall_impl _ (shows_prefix_grows _ _ [t] [s])). exact Hall.
    + apply Forall_app. split; [apply logs_show_prefix; exact Hpre|].
      constructor; [|apply logs_show_prefix; exact Hpost].
      simpl. split; [rewrite Hts, Hss, !length_app, Hlen; reflexivity|].
      split; exists []; rewrite app_nil_r; reflexivity.
  - destruct (process_message_dropped message w Hp)
      as (Hts & Hss & evs & Htr & Hevs).
    fold w1 in Hts, Hss, Htr. rewrite Htr, Hts, Hss.
    apply Forall_app. split; [exact Hall|apply logs_show_prefix; exact Hevs].
Qed.

Lemma consume_loop_shows_prefix (source : list poll) :
  forall w : world,
    List.length (timestamps w) = List.length (sentiments w) ->
    Forall (shows_prefix (timestamps w) (sentiments w)) (trace w) ->
    let w1 := snd (consume_loop source w) in
    Forall (shows_prefix (timestamps w1) (sentiments w1)) (trace w1).
Proof.
  induction source as [|p source IH]; intros w Hlen Hall; cbv zeta.
  - exact Hall.
  - destruct p as [message offset|e]; [|exact Hall].
    rewrite consume_loop_cons.
    set (w0 := emit (Logged DEBUG (ReceivedAt offset message)) w).
    assert (Hall0 : Forall (shows_prefix (timestamps w0) (sentiments w0))
                      (trace w0)).
    { unfold w0, emit. simpl. apply Forall_app. split; [exact Hall|].
      constructor; [exact I|constructor]. }
    destruct (process_message_shows_prefix message w0 Hlen Hall0)
      as (Hlen1 & Hall1).
    destruct (process_message message w0) as [[u|e] w1];
      simpl in Hlen1, Hall1.
    + apply IH; assumption.
    + exact Hall1.
Qed.

(** C2, as amended.  After the loop has processed a run of [k] messages,
    the series is exactly the points of those among them that passed
    validation, in the order the messages arrived.  Every redraw so far was
    handed a beginning of that series, so the chart never shows more points
    than the series nor any in another order, and the latest redraw was
    handed all of it: the chart shows exactly the series whenever that
    redraw returned (always, on a surface that never fails).  A redraw that
    fails is logged and the loop goes on, so the chart may then show fewer
    points than the series.  When no message passed there has been no
    redraw.  Two messages that both decode leave their points in the series
    in the order in which they were received. *)
Theorem chart_shows_accepted_points_unless_redraw_fails
    (messages : list (string * Z)) (w1 : world) :
  consume_loop (records messages) initial = (Returned tt, w1) ->
  let points := series_points (map fst messages) in
  store w1 = points /\
  timestamps w1 = map fst points /\
  sentiments w1 = map snd points /\
  Forall (shows_prefix (timestamps w1) (sentiments w1)) (trace w1) /\
  match points with
  | [] => last_render (trace w1) = None
  | _ :: _ =>
      exists raised,
        last_render (trace w1) = Some (timestamps w1, sentiments w1, raised) /\
        (raised = None ->
         last_drawn (trace w1) = Some (timestamps w1, sentiments w1)) /\
        ((forall n xs ys, draw n xs ys = None) -> raised = None)
  end /\
  (forall a m1 b m2 c p1 p2,
      map fst messages = a ++ m1 :: b ++ m2 :: c ->
      series_point m1 = Some p1 ->
      series_point m2 = Some p2 ->
      exists sa sb sc, store w1 = sa ++ p1 :: sb ++ p2 :: sc).
Proof.
  intros Hrun points.
  destruct (consume_loop_records messages initial w1 Hrun)
    as (Hts & Hss & evs & Htr & Hlast).
  fold points in Hts, Hss, Hlast. simpl in Hts, Hss, Htr.
  assert (Hstore : store w1 = points)
    by (unfold store; rewrite Hts, Hss; apply combine_fst_snd).
  pose proof (consume_loop_shows_prefix (records messages) initial
                eq_refl (Forall_nil _)) as Hall.
  cbv zeta in Hall. rewrite Hrun in Hall. simpl in Hall.
  split; [exact Hstore|]. split; [exact Hts|]. split; [exact Hss|].
  split; [exact Hall|]. split.
  - rewrite Htr. destruct points as [|point points']; [exact Hlast|].
    destruct Hlast as (raised & Hlast & Hraised).
    exists raised. split; [exact Hlast|]. split; [|exact Hraised].
    intros ->. apply last_render_returned_last_drawn. exact Hlast.
  - intros a m1 b m2 c p1 p2 Hsplit Hp1 Hp2.
    rewrite Hstore. unfold points. rewrite Hsplit.
    exists (series_points a), (series_points b), (series_points c).
    rewrite series_points_app.
    change (m1 :: b ++ m2 :: c) with ([m1] ++ b ++ [m2] ++ c).
    rewrite !series_points_app.
    unfold series_points at 2 4. simpl. rewrite Hp1, Hp2.
    reflexivity.
Qed.

Lemma process_message_no_close (message : string) (w : world) :
  exists evs,
    trace (snd (process_message message w)) = trace w ++ evs /\
    closes evs = O.
Proof.
  destruct (series_point message) as [[t s]|] eqn:Hp.
  - destruct (process_message_appended message w t s Hp)
      as (_ & _ & pre & post & Htr & Hpre & Hpost).
    eexists. split; [exact Htr|].
    rewrite closes_app. simpl.
    rewrite (logs_no_close _ Hpre), (logs_no_close _ Hpost). reflexivity.
  - destruct (process_message_dropped message w Hp)
      as (_ & _ & evs & Htr & Hevs).
    exists evs. split; [exact Htr|apply logs_no_close; exact Hevs].
Qed.

Lemma consume_loop_no_close (source : list poll) :
  forall w : world,
  exists evs,
    trace (snd (consume_loop source w)) = trace w ++ evs /\
    closes evs = O.
Proof.
  induction source as [|p source IH]; intros w.
  - exists []. simpl. rewrite app_nil_r. split; reflexivity.
  - destruct p as [message offset|e].
    + rewrite consume_loop_cons.
      set (w0 := emit (Logged DEBUG (ReceivedAt offset message)) w).
      destruct (process_message_no_close message w0) as (evs1 & Htr1 & Hc1).
      destruct (process_message message w0) as [[u|e] w1]; simpl in Htr1.
      * destruct (IH w1) as (evs2 & Htr2 & Hc2).
        exists ((Logged DEBUG (ReceivedAt offset message) :: evs1) ++ evs2).
        split.
        { rewrite Htr2, Htr1. unfold w0, emit. simpl.
          rewrite <- !app_assoc. reflexivity. }
        rewrite closes_app. simpl. rewrite Hc1, Hc2. reflexivity.
      * exists (Logged DEBUG (ReceivedAt offset message) :: evs1).
        split; [|exact Hc1].
        simpl. rewrite Htr1. unfold w0, emit. simpl.
        rewrite <- app_assoc. reflexivity.
    + exists []. simpl. rewrite app_nil_r. split; reflexivity.
Qed.

(** C4.  Whatever way the loop is left (the consumer is exhausted, a
    [KeyboardInterrupt] arrives, polling or processing raises any other
    exception), the [try] statement of [main] calls [consumer.close()]
    exactly once, after everything the loop did, and at most the record
    that the consumer was closed is logged after it before control goes
    back to the caller. *)
Theorem consumer_is_closed_exactly_once
    (topic : string) (c : consumer) (w : world) :
  let w1 := snd (consume topic c w) in
  closes (trace w1) = S (closes (trace w)) /\
  exists before after,
    trace w1 = trace w ++ before ++ Close :: after /\
    closes before = O /\
    (after = [] \/ after = [Logged INFO (ConsumerClosed topic)]).
Proof.
  intros w1.
  assert (H : exists before after,
             trace w1 = trace w ++ before ++ Close :: after /\
             closes before = O /\
             (after = [] \/ after = [Logged INFO (ConsumerClosed topic)])).
  { unfold w1.
    destruct (consume_loop_no_close (polls c) w) as (evs & Htr & Hc).
    unfold consume, try_finally, try_except, consumer_close, bind, log, emit.
    destruct (consume_loop (polls c) w) as [[u|e] w2]; simpl in Htr.
    - destruct (close_raises c); simpl; rewrite Htr, <- ?app_assoc;
        exists evs; eexists; (split; [reflexivity|]); split; auto.
    - destruct e; simpl; destruct (close_raises c); simpl;
        rewrite Htr, <- ?app_assoc; simpl.
      all: try (exists (evs ++ [Logged ERROR (ErrorConsuming JSONDecodeError)]);
                eexists; rewrite <- ?app_assoc; simpl;
                (split; [reflexivity|]);
                rewrite closes_app, Hc; split; auto; fail).
      all: try (exists (evs ++ [Logged ERROR (ErrorConsuming (OtherException cls))]);
                eexists; rewrite <- ?app_assoc; simpl;
                (split; [reflexivity|]);
                rewrite closes_app, Hc; split; auto; fail).
      all: try (exists (evs ++ [Logged WARNING Interrupted]);
                eexists; rewrite <- ?app_assoc; simpl;
                (split; [reflexivity|]);
                rewrite closes_app, Hc; split; auto; fail).
      all: exists evs; eexists; (split; [reflexivity|]); split; auto. }
  split; [|exact H].
  destruct H as (before & after & -> & Hb & Ha).
  rewrite !closes_app. simpl. rewrite Hb.
  destruct Ha as [-> | ->]; simpl; lia.
Qed.

(** C5, as amended.  When the redraw for an accepted message fails with an
    [Exception], [process_message] recovers within that message: the
    failure is logged as an error, the call returns, the point stays
    appended, and the loop goes on to poll the next message; nothing is
    surfaced to the caller. *)
Theorem render_failure_is_logged_and_loop_goes_on
    (message : string) (d : list (string * pyval)) (offset : Z)
    (rest : list poll) (w : world) (e : exn) :
  json_loads message = Returned (PyDict d) ->
  truthy (dict_get d "timestamp") = true ->
  is_None (dict_get d "sentiment") = false ->
  draw (renders (trace w))
    (timestamps w ++ [dict_get d "timestamp"])
    (sentiments w ++ [dict_get d "sentiment"]) = Some e ->
  is_Exception e = true ->
  let w0 := emit (Logged DEBUG (ReceivedAt offset message)) w in
  let w1 := snd (process_message message w0) in
  fst (process_message message w0) = Returned tt /\
  timestamps w1 = timestamps w ++ [dict_get d "timestamp"] /\
  sentiments w1 = sentiments w ++ [dict_get d "sentiment"] /\
  (exists m,
      trace w1 =
        trace w0 ++
          [Logged DEBUG (RawMessage message);
           Logged INFO (ProcessedJSON (PyDict d));
           Logged INFO (Appended (dict_get d "timestamp")
                          (dict_get d "sentiment"));
           Render (timestamps w1) (sentiments w1) (Some e);
           Logged ERROR m]) /\
  consume_loop (Message message offset :: rest) w = consume_loop rest w1.
Proof.
  intros Hj Ht Hs Hdraw He w0 w1.
  pose proof (accepted_series_point message d Hj Ht Hs) as Hp.
  assert (Hr : fst (process_message message w0) = Returned tt).
  { rewrite (process_message_appended_outcome message w0 _ _ Hp).
    unfold w0, emit. simpl. rewrite renders_app. simpl.
    rewrite Nat.add_0_r, Hdraw, He. reflexivity. }
  assert (Hw : timestamps w1 = timestamps w ++ [dict_get d "timestamp"] /\
               sentiments w1 = sentiments w ++ [dict_get d "sentiment"] /\
               exists m,
                 trace w1 =
                   trace w0 ++
                     [Logged DEBUG (RawMessage message);
                      Logged INFO (ProcessedJSON (PyDict d));
                      Logged INFO (Appended (dict_get d "timestamp")
                                     (dict_get d "sentiment"));
                      Render (timestamps w1) (sentiments w1) (Some e);
                      Logged ERROR m]).
  { unfold w1. clear Hr Hp. run. rewrite Hj. simpl. rewrite Ht, Hs. simpl.
    rewrite !renders_app. simpl. rewrite !Nat.add_0_r, Hdraw.
    destruct e; try discriminate; simpl;
      (split; [reflexivity|]); (split; [reflexivity|]);
      eexists; rewrite <- !app_assoc; reflexivity. }
  destruct Hw as (Hts & Hss & Htr).
  repeat split; try assumption.
  rewrite consume_loop_cons. fold w0. unfold w1.
  destruct (process_message message w0) as [r w2]. simpl in Hr.
  rewrite Hr. reflexivity.
Qed.

(** C6, as amended.  When polling raises an [Exception] after a run of
    records the loop got through, the loop ends there (the polls that
    would follow are never made), the error is logged as an error, the
    consumer is closed, once, and the [try] statement completes without
    raising as long as [close] does not raise: the error is not
    propagated to the caller. *)
Theorem polling_failure_is_logged_and_not_propagated
    (topic : string) (c : consumer) (messages : list (string * Z))
    (e : exn) (rest : list poll) (w w1 : world) :
  polls c = records messages ++ PollRaises e :: rest ->
  is_Exception e = true ->
  consume_loop (records messages) w = (Returned tt, w1) ->
  let w2 := snd (consume topic c w) in
  fst (consume topic c w) =
    match close_raises c with
    | None => Returned tt
    | Some e1 => Raised e1
    end /\
  timestamps w2 = timestamps w1 /\
  sentiments w2 = sentiments w1 /\
  trace w2 =
    trace w1 ++
      Logged ERROR (ErrorConsuming e) :: Close ::
      match close_raises c with
      | None => [Logged INFO (ConsumerClosed topic)]
      | Some _ => []
      end /\
  closes (trace w2) = S (closes (trace w)).
Proof.
  intros Hpolls He Hrun w2.
  assert (Hloop : consume_loop (polls c) w = (Raised e, w1)).
  { rewrite Hpolls, consume_loop_app, Hrun. reflexivity. }
  assert (H : consume topic c w =
              (match close_raises c with
               | None => Returned tt
               | Some e1 => Raised e1
               end,
               mkWorld (timestamps w1) (sentiments w1)
                 (trace w1 ++
                    Logged ERROR (ErrorConsuming e) :: Close ::
                    match close_raises c with
                    | None => [Logged INFO (ConsumerClosed topic)]
                    | Some _ => []
                    end))).
  { unfold consume, try_finally, try_except, consumer_close, bind, log, emit.
    rewrite Hloop.
    destruct e; try discriminate; simpl;
      destruct (close_raises c); simpl; rewrite <- ?app_assoc; reflexivity. }
  unfold w2. rewrite H. simpl.
  repeat split.
  destruct (consume_loop_no_close (records messages) w) as (evs & Htr & Hc).
  rewrite Hrun in Htr. simpl in Htr.
  rewrite Htr, !closes_app, Hc. simpl.
  destruct (close_raises c); simpl; lia.
Qed.

(** C8, as amended.  A payload is appended exactly when [json.loads]
    decodes it to an object whose timestamp is true as a condition and
    whose sentiment is not [None]; the types of the two values are not
    looked at, so a sentiment that is no number, or a timestamp that is no
    string, is appended as decoded.  A payload that [json.loads] rejects,
    or that is no object, is never appended. *)
Theorem appended_exactly_when_timestamp_true_and_sentiment_not_None
    (message : string) (w : world) :
  let w1 := snd (process_message message w) in
  match json_loads message with
  | Returned (PyDict d) =>
      if truthy (dict_get d "timestamp")
         && negb (is_None (dict_get d "sentiment"))
      then timestamps w1 = timestamps w ++ [dict_get d "timestamp"] /\
           sentiments w1 = sentiments w ++ [dict_get d "sentiment"]
      else timestamps w1 = timestamps w /\ sentiments w1 = sentiments w
  | _ => timestamps w1 = timestamps w /\ sentiments w1 = sentiments w
  end.
Proof.
  intros w1.
  pose proof (process_message_dropped message w) as Hd.
  pose proof (process_message_appended message w) as Ha.
  unfold series_point in Hd, Ha. fold w1 in Hd, Ha.
  destruct (json_loads message) as [v|e].
  - destruct v; try (destruct (Hd eq_refl) as (? & ? & _); split; assumption).
    destruct (truthy (dict_get items "timestamp")
              && negb (is_None (dict_get items "sentiment"))).
    + destruct (Ha _ _ eq_refl) as (? & ? & _); split; assumption.
    + destruct (Hd eq_refl) as (? & ? & _); split; assumption.
  - destruct (Hd eq_refl) as (? & ? & _); split; assumption.
Qed.

(** X3.  A payload that [json.loads] decodes to a value that is no object
    (a list, a string, a number, a boolean, [None]) is dropped: nothing is
    appended or drawn, the call returns, and one record at level [ERROR]
    names the type of the value. *)
Lemma non_object_is_reported (message : string) (v : pyval) (w : world) :
  json_loads message = Returned v ->
  is_dict v = false ->
  process_message message w =
    (Returned tt,
     mkWorld (timestamps w) (sentiments w)
       (trace w ++
          [Logged DEBUG (RawMessage message);
           Logged INFO (ProcessedJSON v);
           Logged ERROR (ExpectedDict (type_name v))])).
Proof.
  intros Hj Hv. run. rewrite Hj. simpl.
  destruct v; try discriminate; simpl; rewrite <- !app_assoc; reflexivity.
Qed.

(** Next to it, an object that lacks a usable timestamp or sentiment is
    dropped with no record of the rejection at all. *)
Lemma incomplete_object_is_dropped_silently
    (message : string) (d : list (string * pyval)) (w : world) :
  json_loads message = Returned (PyDict d) ->
  truthy (dict_get d "timestamp") && negb (is_None (dict_get d "sentiment"))
    = false ->
  process_message message w =
    (Returned tt,
     mkWorld (timestamps w) (sentiments w)
       (trace w ++
          [Logged DEBUG (RawMessage message);
           Logged INFO (ProcessedJSON (PyDict d))])).
Proof.
  intros Hj Hc. run. rewrite Hj. simpl. rewrite Hc. simpl.
  rewrite <- !app_assoc. reflexivity.
Qed.

End Properties.

(** * The module on concrete payloads *)

(** Scenario A of the design document, through the theorem for C1: the
    series becomes the one decoded point and the chart is redrawn once. *)
Lemma scenario_A_appends_and_renders_once :
  Json.loads scenario_A =
    Returned
      (PyDict
         [("timestamp", PyStr "2025-01-29 14:35:20");
          ("sentiment", PyFloat (S754_finite false 8106479329266893 (-53)))]) /\
  store (snd (process_message Json.loads draw_ok scenario_A initial)) =
    [(PyStr "2025-01-29 14:35:20",
      PyFloat (S754_finite false 8106479329266893 (-53)))] /\
  renders (trace (snd (process_message Json.loads draw_ok scenario_A initial))) =
    1%nat.
Proof.
  destruct
    (process_message_appends_point_and_renders_once Json.loads draw_ok
       scenario_A
       [("timestamp", PyStr "2025-01-29 14:35:20");
        ("sentiment", PyFloat (S754_finite false 8106479329266893 (-53)))]
       initial)
    as (_ & _ & _ & _ & Hstore & Hrenders);
    try (vm_compute; reflexivity).
  split; [vm_compute; reflexivity|].
  split; [|exact Hrenders].
  destruct (Hstore eq_refl) as (Hs & _). exact Hs.
Defined.

(** Scenario B, through the theorem for C3: the payload is dropped, nothing
    is drawn, and the loop goes on with the message that follows. *)
Lemma scenario_B_is_skipped :
  Json.loads scenario_B = Raised JSONDecodeError /\
  store (snd (process_message Json.loads draw_ok scenario_B
                (emit (Logged DEBUG (ReceivedAt 7 scenario_B)) initial))) = [] /\
  consume_loop Json.loads draw_ok
    [Message scenario_B 7; Message scenario_A 8] initial =
  consume_loop Json.loads draw_ok [Message scenario_A 8]
    (snd (process_message Json.loads draw_ok scenario_B
            (emit (Logged DEBUG (ReceivedAt 7 scenario_B)) initial))).
Proof.
  destruct
    (malformed_payload_is_skipped Json.loads draw_ok scenario_B 7
       [Message scenario_A 8] initial
       (not_valid_json Json.loads scenario_B JSONDecodeError eq_refl eq_refl))
    as (_ & Hts & Hss & _ & _ & Hloop).
  split; [reflexivity|].
  split; [unfold store; rewrite Hts, Hss; reflexivity|exact Hloop].
Defined.

(** Scenario D with a malformed payload in between, through the theorem for
    C2 as amended: the series holds the two points in the order of arrival,
    and on a surface that draws the chart shows both. *)
Lemma scenario_D_is_charted_in_arrival_order :
  store (snd (consume_loop Json.loads draw_ok
                (records [(scenario_D1, 0); (scenario_B, 1); (scenario_D2, 2)])
                initial)) =
    [(PyStr "t1", PyFloat (S754_finite false 4503599627370496 (-53)));
     (PyStr "t2", PyFloat (S754_finite true 5404319552844595 (-54)))] /\
  last_drawn
    (trace (snd (consume_loop Json.loads draw_ok
                   (records [(scenario_D1, 0); (scenario_B, 1); (scenario_D2, 2)])
                   initial))) =
    Some ([PyStr "t1"; PyStr "t2"],
          [PyFloat (S754_finite false 4503599627370496 (-53));
           PyFloat (S754_finite true 5404319552844595 (-54))]).
Proof.
  destruct
    (chart_shows_accepted_points_unless_redraw_fails Json.loads draw_ok
       [(scenario_D1, 0); (scenario_B, 1); (scenario_D2, 2)]
       (snd (consume_loop Json.loads draw_ok
               (records [(scenario_D1, 0); (scenario_B, 1); (scenario_D2, 2)])
               initial)))
    as (Hstore & Hts & Hss & _ & Hchart & _);
    [vm_compute; reflexivity|].
  split; [rewrite Hstore; vm_compute; reflexivity|].
  change (series_points Json.loads
            (map fst [(scenario_D1, 0); (scenario_B, 1); (scenario_D2, 2)]))
    with [(PyStr "t1", PyFloat (S754_finite false 4503599627370496 (-53)));
          (PyStr "t2", PyFloat (S754_finite true 5404319552844595 (-54)))]
    in Hchart, Hts, Hss.
  destruct Hchart as (raised & _ & Hdrawn & Hraised).
  rewrite (Hdrawn (Hraised (fun _ _ _ => eq_refl))), Hts, Hss. reflexivity.
Defined.

(** On a surface that draws the first frame and fails at the second, the
    loop gets through both messages of scenario D and the series holds both
    points, but the redraw that was handed both raised: the last frame
    drawn in full holds the first point only.  This is C2 as stated,
    refuted in its never fewer. *)
Lemma failed_redraw_leaves_the_chart_behind_the_series :
  fst run_with_display_lost = Returned tt /\
  store (snd run_with_display_lost) =
    [(PyStr "t1", PyFloat (S754_finite false 4503599627370496 (-53)));
     (PyStr "t2", PyFloat (S754_finite true 5404319552844595 (-54)))] /\
  last_render (trace (snd run_with_display_lost)) =
    Some ([PyStr "t1"; PyStr "t2"],
          [PyFloat (S754_finite false 4503599627370496 (-53));
           PyFloat (S754_finite true 5404319552844595 (-54))],
          Some (OtherException "TclError")) /\
  last_drawn (trace (snd run_with_display_lost)) =
    Some ([PyStr "t1"],
          [PyFloat (S754_finite false 4503599627370496 (-53))]).
Proof. vm_compute. repeat split. Qed.

(** The docstring's message with a huge negative integer for a sentiment,
    through the theorem for C9: the other keys do not matter and the number
    is appended as decoded. *)
Lemma eve_message_is_appended_as_is :
  truthy (dict_get
            [("message", PyStr "I love Python!"); ("author", PyStr "Eve");
             ("sentiment", PyInt (-12345678901234567890));
             ("timestamp", PyStr "2025-01-29 14:35:20")] "timestamp") = true /\
  sentiments (snd (process_message Json.loads draw_ok eve_message initial)) =
    [PyInt (-12345678901234567890)] /\
  timestamps (snd (process_message Json.loads draw_ok eve_message initial)) =
    [PyStr "2025-01-29 14:35:20"].
Proof.
  destruct
    (any_number_is_appended_as_is Json.loads draw_ok eve_message
       [("message", PyStr "I love Python!"); ("author", PyStr "Eve");
        ("sentiment", PyInt (-12345678901234567890));
        ("timestamp", PyStr "2025-01-29 14:35:20")]
       initial)
    as (_ & Hts & Hss);
    [vm_compute; reflexivity | reflexivity
     | left; exists (-12345678901234567890); reflexivity |].
  split; [reflexivity|].
  split; [exact Hss|exact Hts].
Defined.

(** With a display surface that cannot draw, [main()] does not stop at the
    first failed redraw and raises nothing: both messages are processed,
    both redraws are attempted and fail, and [main()] returns.  This is
    C5 as stated, refuted. *)
Lemma render_failure_neither_ends_the_loop_nor_reaches_the_caller :
  last_render (trace (snd run_without_display)) =
    Some ([PyStr "t1"; PyStr "t2"],
          [PyFloat (S754_finite false 4503599627370496 (-53));
           PyFloat (S754_finite true 5404319552844595 (-54))],
          Some (OtherException "TclError")) /\
  renders (trace (snd run_without_display)) = 2%nat /\
  fst run_without_display = Returned tt.
Proof. vm_compute. repeat split. Qed.

(** The first message of scenario D on a surface that cannot draw, through
    the theorem for C5 as amended. *)
Lemma failed_redraw_of_scenario_D1_is_recovered :
  draw_fails 0 [PyStr "t1"]
    [PyFloat (S754_finite false 4503599627370496 (-53))] =
    Some (OtherException "TclError") /\
  fst (process_message Json.loads draw_fails scenario_D1
         (emit (Logged DEBUG (ReceivedAt 0 scenario_D1)) initial)) =
    Returned tt /\
  consume_loop Json.loads draw_fails
    [Message scenario_D1 0; Message scenario_D2 1] initial =
  consume_loop Json.loads draw_fails [Message scenario_D2 1]
    (snd (process_message Json.loads draw_fails scenario_D1
            (emit (Logged DEBUG (ReceivedAt 0 scenario_D1)) initial))).
Proof.
  destruct
    (render_failure_is_logged_and_loop_goes_on Json.loads draw_fails
       scenario_D1
       [("timestamp", PyStr "t1");
        ("sentiment", PyFloat (S754_finite false 4503599627370496 (-53)))]
       0 [Message scenario_D2 1] initial (OtherException "TclError"))
    as (Hr & _ & _ & _ & Hloop);
    try (vm_compute; reflexivity).
  split; [reflexivity|].
  split; [exact Hr|exact Hloop].
Defined.

(** When the second poll raises, [main()] logs the error, closes the
    consumer and returns: the caller of the loop sees no exception.  This is
    C6 as stated, refuted in its last part. *)
Lemma polling_failure_does_not_reach_the_caller :
  fst run_with_failing_poll = Returned tt /\
  closes (trace (snd run_with_failing_poll)) = 1%nat /\
  store (snd run_with_failing_poll) =
    [(PyStr "t1", PyFloat (S754_finite false 4503599627370496 (-53)))] /\
  In (Logged ERROR (ErrorConsuming (OtherException "KafkaError")))
    (trace (snd run_with_failing_poll)).
Proof.
  vm_compute. repeat split.
  do 11 right. left. reflexivity.
Qed.

(** A consumer whose second poll fails, through the theorem for C6 as
    amended. *)
Lemma failing_second_poll_is_logged_and_consumer_closed :
  consume_loop Json.loads draw_ok (records [(scenario_D1, 0)]) initial =
    (Returned tt,
     snd (consume_loop Json.loads draw_ok (records [(scenario_D1, 0)]) initial)) /\
  fst (consume Json.loads draw_ok "project_json"
         (mkConsumer
            [Message scenario_D1 0;
             PollRaises (OtherException "KafkaError");
             Message scenario_D2 1] None)
         initial) = Returned tt /\
  closes
    (trace
       (snd (consume Json.loads draw_ok "project_json"
               (mkConsumer
                  [Message scenario_D1 0;
                   PollRaises (OtherException "KafkaError");
                   Message scenario_D2 1] None)
               initial))) = 1%nat.
Proof.
  assert (Hrun :
            consume_loop Json.loads draw_ok (records [(scenario_D1, 0)]) initial =
            (Returned tt,
             snd (consume_loop Json.loads draw_ok
                    (records [(scenario_D1, 0)]) initial)))
    by (vm_compute; reflexivity).
  destruct
    (polling_failure_is_logged_and_not_propagated Json.loads draw_ok
       "project_json"
       (mkConsumer
          [Message scenario_D1 0;
           PollRaises (OtherException "KafkaError");
           Message scenario_D2 1] None)
       [(scenario_D1, 0)] (OtherException "KafkaError")
       [Message scenario_D2 1] initial _ eq_refl eq_refl Hrun)
    as (Hr & _ & _ & _ & Hcloses).
  split; [exact Hrun|].
  split; [exact Hr|exact Hcloses].
Defined.

(** A payload with a number for a timestamp and a string for a sentiment is
    appended like any other.  This is C8 as stated, refuted. *)
Lemma untyped_message_is_appended :
  Json.loads untyped_message =
    Returned (PyDict [("timestamp", PyInt 5); ("sentiment", PyStr "high")]) /\
  store (snd (process_message Json.loads draw_ok untyped_message initial)) =
    [(PyInt 5, PyStr "high")].
Proof. vm_compute. split; reflexivity. Qed.

(** C7.  Scenario C, an object without a sentiment: the call returns and
    appends nothing, and its whole trace is the two records logged before
    the fields are looked at; no record of a validation failure is
    logged, at any level. *)
Theorem scenario_C_is_dropped_without_a_log_record :
  process_message Json.loads draw_ok scenario_C initial =
    (Returned tt,
     mkWorld [] []
       [Logged DEBUG (RawMessage scenario_C);
        Logged INFO (ProcessedJSON (PyDict [("timestamp", PyStr "t1")]))]).
Proof. vm_compute. reflexivity. Qed.


(** * Further properties of [process_message] and [main] *)

Section Exits.

Variable json_loads : string -> outcome pyval.
Variable draw : nat -> list pyval -> list pyval -> option exn.
Variable getenv : string -> option string.
Variable create_kafka_consumer : string -> string -> outcome consumer.

Local Abbreviation process_message := (process_message json_loads draw).
Local Abbreviation series_point := (series_point json_loads).
Local Abbreviation series_points := (series_points json_loads).
Local Abbreviation consume_loop := (consume_loop json_loads draw).
Local Abbreviation consume := (consume json_loads draw).
Local Abbreviation main :=
  (main json_loads draw getenv create_kafka_consumer).

Lemma process_message_outcome (message : string) (w : world) :
  fst (process_message message w) = Returned tt \/
  exists e,
    fst (process_message message w) = Raised e /\
    is_Exception e = false /\
    (json_loads message = Raised e \/ exists n xs ys, draw n xs ys = Some e).
Proof.
  run. destruct (json_loads message) as [v|e] eqn:Hj.
  - destruct v; simpl; try (left; reflexivity).
    destruct (truthy (dict_get items "timestamp")
              && negb (is_None (dict_get items "sentiment")));
      simpl; [|left; reflexivity].
    destruct (draw _ _ _) as [e|] eqn:Hd; simpl; [|left; reflexivity].
    destruct e; simpl; try (left; reflexivity);
      right; eexists; (split; [reflexivity|]); (split; [reflexivity|]);
      right; eauto.
  - destruct e; simpl; try (left; reflexivity);
      right; eexists; (split; [reflexivity|]); (split; [reflexivity|]);
      left; reflexivity.
Qed.

(** X1.  What a call can end with: it returns, or it raises something that is
    no [Exception] and that [json.loads] or the redraw raised.  No
    [Exception] ever leaves [process_message]. *)
Theorem process_message_lets_no_Exception_out (message : string) (w : world) :
  fst (process_message message w) = Returned tt \/
  exists e,
    fst (process_message message w) = Raised e /\
    is_Exception e = false /\
    (json_loads message = Raised e \/ exists n xs ys, draw n xs ys = Some e).
Proof. exact (process_message_outcome message w). Qed.

(** X2.  Text that [json.loads] turns down with an [Exception] is dropped and
    reported by exactly one record at level [ERROR]: as invalid JSON for a
    [JSONDecodeError], as a processing error otherwise. *)
Theorem undecodable_payload_is_reported_once
    (message : string) (e : exn) (w : world) :
  json_loads message = Raised e ->
  is_Exception e = true ->
  process_message message w =
    (Returned tt,
     mkWorld (timestamps w) (sentiments w)
       (trace w ++
          [Logged DEBUG (RawMessage message);
           Logged ERROR
             match e with
             | JSONDecodeError => InvalidJSON message
             | _ => ErrorProcessing e
             end])).
Proof.
  intros Hj He. run. rewrite Hj.
  destruct e; try discriminate; simpl; rewrite <- !app_assoc; reflexivity.
Qed.

(** X4.  An accepted message whose redraw returns: both values are appended, the
    chart is redrawn with the lists as they then are, and the record that
    the chart was updated closes the five events of the call. *)
Theorem accepted_message_with_working_display
    (message : string) (d : list (string * pyval)) (w : world) :
  json_loads message = Returned (PyDict d) ->
  truthy (dict_get d "timestamp") = true ->
  is_None (dict_get d "sentiment") = false ->
  draw (renders (trace w))
    (timestamps w ++ [dict_get d "timestamp"])
    (sentiments w ++ [dict_get d "sentiment"]) = None ->
  process_message message w =
    (Returned tt,
     mkWorld
       (timestamps w ++ [dict_get d "timestamp"])
       (sentiments w ++ [dict_get d "sentiment"])
       (trace w ++
          [Logged DEBUG (RawMessage message);
           Logged INFO (ProcessedJSON (PyDict d));
           Logged INFO (Appended (dict_get d "timestamp")
                          (dict_get d "sentiment"));
           Render (timestamps w ++ [dict_get d "timestamp"])
             (sentiments w ++ [dict_get d "sentiment"]) None;
           Logged INFO (ChartUpdated message)])).
Proof.
  intros Hj Ht Hs Hdraw. run. rewrite Hj. simpl. rewrite Ht, Hs. simpl.
  rewrite !renders_app. simpl. rewrite !Nat.add_0_r, Hdraw. simpl.
  rewrite <- !app_assoc. reflexivity.
Qed.

(** X5.  A redraw that raises something that is no [Exception] (a
    [KeyboardInterrupt] while the chart pauses) is not recovered: the call
    raises it with the point already appended, nothing is logged about it,
    and the loop stops there without polling again. *)
Theorem interrupted_redraw_stops_the_loop
    (message : string) (d : list (string * pyval)) (offset : Z)
    (rest : list poll) (w : world) (e : exn) :
  json_loads message = Returned (PyDict d) ->
  truthy (dict_get d "timestamp") = true ->
  is_None (dict_get d "sentiment") = false ->
  draw (renders (trace w))
    (timestamps w ++ [dict_get d "timestamp"])
    (sentiments w ++ [dict_get d "sentiment"]) = Some e ->
  is_Exception e = false ->
  consume_loop (Message message offset :: rest) w =
    (Raised e,
     mkWorld
       (timestamps w ++ [dict_get d "timestamp"])
       (sentiments w ++ [dict_get d "sentiment"])
       (trace w ++
          [Logged DEBUG (ReceivedAt offset message);
           Logged DEBUG (RawMessage message);
           Logged INFO (ProcessedJSON (PyDict d));
           Logged INFO (Appended (dict_get d "timestamp")
                          (dict_get d "sentiment"));
           Render (timestamps w ++ [dict_get d "timestamp"])
             (sentiments w ++ [dict_get d "sentiment"]) (Some e)])).
Proof.
  intros Hj Ht Hs Hdraw He.
  rewrite consume_loop_cons. run. rewrite Hj. simpl. rewrite Ht, Hs. simpl.
  rewrite !renders_app. simpl. rewrite !Nat.add_0_r, Hdraw.
  destruct e; try discriminate; simpl; rewrite <- !app_assoc; reflexivity.
Qed.

(** X6.  An [Exception] that leaves the loop was raised by polling: whatever
    goes wrong with a single message stays within that message. *)
Theorem loop_raises_an_Exception_only_from_polling
    (source : list poll) (w : world) (e : exn) :
  fst (consume_loop source w) = Raised e ->
  is_Exception e = true ->
  In (PollRaises e) source.
Proof.
  revert w. induction source as [|p source IH]; intros w Hr He.
  - discriminate.
  - destruct p as [message offset|e0].
    + right. rewrite consume_loop_cons in Hr.
      set (w0 := emit (Logged DEBUG (ReceivedAt offset message)) w) in *.
      destruct (process_message_outcome message w0)
        as [Hok|(e1 & Hraised & He1 & _)].
      * destruct (process_message message w0) as [r w1]. simpl in Hok.
        subst r. exact (IH w1 Hr He).
      * destruct (process_message message w0) as [r w1]. simpl in Hraised.
        subst r. simpl in Hr. injection Hr as ->. congruence.
    + left. simpl in Hr. injection Hr as ->. reflexivity.
Qed.

Lemma logs_balanced (evs : list event) :
  forallb is_log evs = true -> forallb balanced_render evs = true.
Proof.
  induction evs as [|ev evs IH]; simpl; [reflexivity|].
  destruct ev; simpl; intros H; try discriminate; auto.
Qed.

(** One call: the lists grow by at most one point, together; the new events
    hold one redraw for an appended point and none otherwise, and no
    [close]. *)
Lemma process_message_grows (message : string) (w : world) :
  let w1 := snd (process_message message w) in
  exists points evs,
    timestamps w1 = timestamps w ++ map fst points /\
    sentiments w1 = sentiments w ++ map snd points /\
    trace w1 = trace w ++ evs /\
    renders evs = List.length points /\
    closes evs = O /\
    (List.length (timestamps w) = List.length (sentiments w) ->
     forallb balanced_render evs = true).
Proof.
  intros w1. destruct (series_point message) as [[t s]|] eqn:Hp.
  - destruct (process_message_appended json_loads draw message w t s Hp)
      as (Hts & Hss & pre & post & Htr & Hpre & Hpost).
    fold w1 in Hts, Hss, Htr.
    exists [(t, s)]. eexists. repeat split; try eassumption.
    + rewrite renders_app. simpl.
      rewrite (logs_no_render _ Hpre), (logs_no_render _ Hpost). reflexivity.
    + rewrite closes_app. simpl.
      rewrite (logs_no_close _ Hpre), (logs_no_close _ Hpost). reflexivity.
    + intros Hlen. rewrite forallb_app. simpl.
      rewrite (logs_balanced _ Hpre), (logs_balanced _ Hpost).
      rewrite Hts, Hss, !length_app, Hlen. simpl.
      rewrite Nat.eqb_refl. reflexivity.
  - destruct (process_message_dropped json_loads draw message w Hp)
      as (Hts & Hss & evs & Htr & Hevs).
    fold w1 in Hts, Hss, Htr.
    exists [], evs. simpl. rewrite !app_nil_r. repeat split; try assumption.
    + apply logs_no_render. exact Hevs.
    + apply logs_no_close. exact Hevs.
    + intros _. apply logs_balanced. exact Hevs.
Qed.

(** The loop over any polls, however it ends. *)
Lemma consume_loop_grows (source : list poll) :
  forall w : world,
    let w1 := snd (consume_loop source w) in
    exists points evs,
      timestamps w1 = timestamps w ++ map fst points /\
      sentiments w1 = sentiments w ++ map snd points /\
      trace w1 = trace w ++ evs /\
      renders evs = List.length points /\
      closes evs = O /\
      (List.length (timestamps w) = List.length (sentiments w) ->
       forallb balanced_render evs = true).
Proof.
  induction source as [|p source IH]; intros w; cbv zeta.
  - exists [], []. simpl. rewrite !app_nil_r. repeat split.
  - destruct p as [message offset|e].
    + rewrite consume_loop_cons.
      set (w0 := emit (Logged DEBUG (ReceivedAt offset message)) w).
      destruct (process_message_grows message w0)
        as (pts1 & evs1 & Hts1 & Hss1 & Htr1 & Hr1 & Hc1 & Hb1).
      destruct (process_message message w0) as [[u|e] w1];
        simpl in Hts1, Hss1, Htr1.
      * destruct (IH w1) as (pts2 & evs2 & Hts2 & Hss2 & Htr2 & Hr2 & Hc2 & Hb2).
        exists (pts1 ++ pts2),
               ((Logged DEBUG (ReceivedAt offset message) :: evs1) ++ evs2).
        rewrite !map_app.
        split; [rewrite Hts2, Hts1, <- app_assoc; reflexivity|].
        split; [rewrite Hss2, Hss1, <- app_assoc; reflexivity|].
        split.
        { rewrite Htr2, Htr1. unfold w0, emit. simpl.
          rewrite <- !app_assoc. reflexivity. }
        split; [rewrite renders_app, length_app; simpl; congruence|].
        split; [rewrite closes_app; simpl; rewrite Hc1, Hc2; reflexivity|].
        intros Hlen. rewrite forallb_app. simpl.
        rewrite (Hb1 Hlen). apply Hb2.
        rewrite Hts1, Hss1, !length_app, !length_map. simpl.
        rewrite Hlen. reflexivity.
      * exists pts1, (Logged DEBUG (ReceivedAt offset message) :: evs1).
        simpl snd.
        split; [exact Hts1|]. split; [exact Hss1|].
        split.
        { rewrite Htr1. unfold w0, emit. simpl.
          rewrite <- !app_assoc. reflexivity. }
        split; [exact Hr1|]. split; [exact Hc1|].
        intros Hlen. simpl. apply Hb1. exact Hlen.
    + exists [], []. simpl. rewrite !app_nil_r. repeat split.
Qed.

(** X7.  The loop only ever appends: however it ends, each list still starts
    with what it held before, and the two lists have grown by the same
    number of values. *)
Theorem loop_only_appends (source : list poll) (w : world) :
  exists points,
    timestamps (snd (consume_loop source w)) =
      timestamps w ++ map fst points /\
    sentiments (snd (consume_loop source w)) =
      sentiments w ++ map snd points.
Proof.
  destruct (consume_loop_grows source w) as (points & evs & Hts & Hss & _).
  exists points. split; assumption.
Qed.

(** X8.  The loop never redraws more often than it appends: a redraw only
    ever follows the two appends of an accepted message.  When the loop
    gets to the end of the consumer's records and returns, it has redrawn
    exactly once for every point it appended. *)
Theorem loop_redraws_no_more_than_it_appends (source : list poll) (w : world) :
  (renders (trace (snd (consume_loop source w)))
   + List.length (timestamps w) <=
   renders (trace w)
   + List.length (timestamps (snd (consume_loop source w))))%nat /\
  (fst (consume_loop source w) = Returned tt ->
   (renders (trace (snd (consume_loop source w)))
    + List.length (timestamps w))%nat =
   (renders (trace w)
    + List.length (timestamps (snd (consume_loop source w))))%nat).
Proof.
  destruct (consume_loop_grows source w)
    as (points & evs & Hts & _ & Htr & Hr & _).
  rewrite Hts, Htr, renders_app, length_app, length_map, Hr.
  split; [lia|intros _; lia].
Qed.

(** The [try] statement of [main], by the way its loop ended: what its
    handlers log, then [close], then the record that the consumer was
    closed; what it returns or raises. *)
Lemma consume_by_loop_outcome
    (topic : string) (c : consumer) (w wl : world) (r : outcome unit) :
  consume_loop (polls c) w = (r, wl) ->
  consume topic c w =
    (match close_raises c with
     | Some e1 => Raised e1
     | None =>
         match r with
         | Raised (OtherBaseException cls) => Raised (OtherBaseException cls)
         | _ => Returned tt
         end
     end,
     mkWorld (timestamps wl) (sentiments wl)
       (trace wl ++
          match r with
          | Returned _ => []
          | Raised KeyboardInterrupt => [Logged WARNING Interrupted]
          | Raised (OtherBaseException _) => []
          | Raised e => [Logged ERROR (ErrorConsuming e)]
          end ++
          Close ::
          match close_raises c with
          | None => [Logged INFO (ConsumerClosed topic)]
          | Some _ => []
          end)).
Proof.
  intros Hloop.
  unfold consume, try_finally, try_except, consumer_close, bind, log, emit.
  rewrite Hloop.
  destruct r as [[]|e]; [|destruct e]; simpl;
    destruct (close_raises c); simpl; rewrite <- ?app_assoc; reflexivity.
Qed.

(** X11.  A [KeyboardInterrupt] that ends the loop, whether it arrived while
    polling or during a redraw, is no error: it is logged as a warning, the
    consumer is closed, and the [try] statement completes without raising
    as long as [close] does not raise. *)
Theorem interrupt_is_logged_as_warning_and_consumer_closed
    (topic : string) (c : consumer) (w wl : world) :
  consume_loop (polls c) w = (Raised KeyboardInterrupt, wl) ->
  consume topic c w =
    (match close_raises c with
     | Some e1 => Raised e1
     | None => Returned tt
     end,
     mkWorld (timestamps wl) (sentiments wl)
       (trace wl ++
          Logged WARNING Interrupted :: Close ::
          match close_raises c with
          | None => [Logged INFO (ConsumerClosed topic)]
          | Some _ => []
          end)).
Proof.
  intros Hloop.
  rewrite (consume_by_loop_outcome topic c w wl _ Hloop). reflexivity.
Qed.

(** X12.  An exception that is neither an [Exception] nor a [KeyboardInterrupt]
    (a [SystemExit]) is handled by no clause: nothing is logged about it,
    the consumer is still closed, and the exception goes on to the caller,
    unless [close] raises in its place. *)
Theorem other_exception_propagates_after_close
    (topic : string) (c : consumer) (w wl : world) (cls : string) :
  consume_loop (polls c) w = (Raised (OtherBaseException cls), wl) ->
  consume topic c w =
    (Raised match close_raises c with
            | Some e1 => e1
            | None => OtherBaseException cls
            end,
     mkWorld (timestamps wl) (sentiments wl)
       (trace wl ++
          Close ::
          match close_raises c with
          | None => [Logged INFO (ConsumerClosed topic)]
          | Some _ => []
          end)).
Proof.
  intros Hloop.
  rewrite (consume_by_loop_outcome topic c w wl _ Hloop).
  destruct (close_raises c); reflexivity.
Qed.

(** X10.  When the consumer is exhausted the handlers log nothing: the consumer
    is closed, the closing is logged, and the lists are those the loop
    left. *)
Theorem exhausted_consumer_is_closed_quietly
    (topic : string) (c : consumer) (w wl : world) :
  consume_loop (polls c) w = (Returned tt, wl) ->
  close_raises c = None ->
  consume topic c w =
    (Returned tt,
     mkWorld (timestamps wl) (sentiments wl)
       (trace wl ++ [Close; Logged INFO (ConsumerClosed topic)])).
Proof.
  intros Hloop Hclose.
  rewrite (consume_by_loop_outcome topic c w wl _ Hloop), Hclose. reflexivity.
Qed.

(** X13.  When [close] itself raises, that exception is what the [try] statement
    raises, whatever the loop did, and the closing is not logged. *)
Theorem failing_close_raises_and_is_not_logged
    (topic : string) (c : consumer) (w : world) (e : exn) :
  close_raises c = Some e ->
  fst (consume topic c w) = Raised e /\
  last (trace (snd (consume topic c w))) Close = Close.
Proof.
  intros Hclose.
  destruct (consume_loop (polls c) w) as [r wl] eqn:Hloop.
  rewrite (consume_by_loop_outcome topic c w wl r Hloop), Hclose. simpl.
  split; [reflexivity|].
  rewrite app_assoc. apply last_last.
Qed.

Lemma main_by_parts (w : world) :
  main w =
    let topic := os_getenv getenv "PROJECT_TOPIC" "project_json" in
    let group_id :=
      os_getenv getenv "PROJECT_CONSUMER_GROUP_ID" "project_group" in
    let w4 :=
      mkWorld (timestamps w) (sentiments w)
        (trace w ++
           [Logged INFO StartConsumer;
            Logged INFO (KafkaTopic topic);
            Logged INFO (KafkaGroupId group_id);
            Logged INFO (ConsumerTopicGroup topic group_id)]) in
    match create_kafka_consumer topic group_id with
    | Raised e => (Raised e, w4)
    | Returned c =>
        match consume topic c (emit (Logged INFO (PollingMessages topic)) w4) with
        | (Returned _, w6) =>
            (Returned tt, emit (Logged INFO (EndConsumer topic group_id)) w6)
        | (Raised e, w6) => (Raised e, w6)
        end
    end.
Proof.
  unfold main, get_kafka_topic, get_kafka_consumer_group_id,
    bind, log, ret, call, emit.
  simpl. rewrite <- !app_assoc. simpl.
  destruct (create_kafka_consumer _ _) as [c|e]; [|reflexivity].
  destruct (consume _ c _) as [[[]|e] w6]; reflexivity.
Qed.

(** X14.  When [create_kafka_consumer] raises, [main] raises the same exception at
    once: it has logged its start and the topic and group it read from the
    environment (or their defaults), it polls nothing, appends nothing and
    closes nothing, there being no consumer. *)
Theorem main_without_a_consumer (w : world) (e : exn) :
  create_kafka_consumer
    (os_getenv getenv "PROJECT_TOPIC" "project_json")
    (os_getenv getenv "PROJECT_CONSUMER_GROUP_ID" "project_group") = Raised e ->
  main w =
    (Raised e,
     mkWorld (timestamps w) (sentiments w)
       (trace w ++
          [Logged INFO StartConsumer;
           Logged INFO (KafkaTopic (os_getenv getenv "PROJECT_TOPIC" "project_json"));
           Logged INFO
             (KafkaGroupId
                (os_getenv getenv "PROJECT_CONSUMER_GROUP_ID" "project_group"));
           Logged INFO
             (ConsumerTopicGroup
                (os_getenv getenv "PROJECT_TOPIC" "project_json")
                (os_getenv getenv "PROJECT_CONSUMER_GROUP_ID" "project_group"))])).
Proof.
  intros Hcreate. rewrite main_by_parts. cbv zeta. rewrite Hcreate. reflexivity.
Qed.

Lemma records_loop_returns (messages : list (string * Z)) :
  (forall m e,
      In m (map fst messages) -> json_loads m = Raised e ->
      is_Exception e = true) ->
  (forall n xs ys e, draw n xs ys = Some e -> is_Exception e = true) ->
  forall w : world, fst (consume_loop (records messages) w) = Returned tt.
Proof.
  intros Hjson Hdraw.
  induction messages as [|[message offset] messages IH]; intros w;
    [reflexivity|].
  simpl records. rewrite consume_loop_cons.
  set (w0 := emit (Logged DEBUG (ReceivedAt offset message)) w).
  destruct (process_message_outcome message w0)
    as [Hok|(e & _ & He & [Hj|(n & xs & ys & Hd)])].
  - destruct (process_message message w0) as [r w1]. simpl in Hok. subst r.
    apply IH. intros m e Hin. apply Hjson. right. exact Hin.
  - rewrite (Hjson message e (or_introl eq_refl) Hj) in He. discriminate.
  - rewrite (Hdraw _ _ _ _ Hd) in He. discriminate.
Qed.

(** X15.  A whole run on a finite topic.  When [json.loads], on the payloads of
    the topic, and the display raise nothing but [Exception]s, and the
    consumer yields its records, is then exhausted and closes, [main]
    returns from the module's initial state with the series made of exactly
    the points of the accepted messages in their order, one redraw for
    each, the consumer closed once, and the record of its end logged
    last. *)
Theorem main_on_a_finite_topic
    (c : consumer) (messages : list (string * Z)) :
  (forall m e,
      In m (map fst messages) -> json_loads m = Raised e ->
      is_Exception e = true) ->
  (forall n xs ys e, draw n xs ys = Some e -> is_Exception e = true) ->
  create_kafka_consumer
    (os_getenv getenv "PROJECT_TOPIC" "project_json")
    (os_getenv getenv "PROJECT_CONSUMER_GROUP_ID" "project_group") = Returned c ->
  polls c = records messages ->
  close_raises c = None ->
  fst (main initial) = Returned tt /\
  store (snd (main initial)) = series_points (map fst messages) /\
  renders (trace (snd (main initial))) =
    List.length (series_points (map fst messages)) /\
  closes (trace (snd (main initial))) = 1%nat /\
  last (trace (snd (main initial))) Close =
    Logged INFO
      (EndConsumer
         (os_getenv getenv "PROJECT_TOPIC" "project_json")
         (os_getenv getenv "PROJECT_CONSUMER_GROUP_ID" "project_group")).
Proof.
  intros Hjson Hdraw Hcreate Hpolls Hclose.
  rewrite main_by_parts. cbv zeta. rewrite Hcreate.
  set (topic := os_getenv getenv "PROJECT_TOPIC" "project_json").
  set (group_id := os_getenv getenv "PROJECT_CONSUMER_GROUP_ID" "project_group").
  set (w5 := emit (Logged INFO (PollingMessages topic)) _).
  pose proof (records_loop_returns messages Hjson Hdraw w5) as Hret.
  destruct (consume_loop (records messages) w5) as [r wl] eqn:Hloop.
  simpl in Hret. subst r.
  assert (Hloop' : consume_loop (polls c) w5 = (Returned tt, wl))
    by (rewrite Hpolls; exact Hloop).
  rewrite (consume_by_loop_outcome topic c w5 wl _ Hloop'), Hclose.
  destruct (consume_loop_records json_loads draw messages w5 wl Hloop)
    as (Hts & Hss & _).
  destruct (consume_loop_grows (records messages) w5)
    as (pts & evs & Hts2 & _ & Htr & Hr & Hc & _).
  rewrite Hloop in Hts2, Htr. simpl in Hts, Hss, Hts2, Htr.
  assert (Hn : List.length pts =
               List.length (series_points (map fst messages))).
  { apply (f_equal (@List.length pyval)) in Hts2. rewrite Hts in Hts2.
    rewrite !length_map in Hts2. symmetry. exact Hts2. }
  simpl. repeat split.
  - unfold store. simpl. rewrite Hts, Hss. apply combine_fst_snd.
  - rewrite Htr, !renders_app. simpl. rewrite Hr, Hn. lia.
  - rewrite Htr, !closes_app. simpl. rewrite Hc. reflexivity.
  - apply last_last.
Qed.

(** X9.  From the module's initial state, whatever happens, every redraw of a
    run of [main] hands pyplot as many timestamps as sentiments. *)
Theorem every_redraw_gets_lists_of_equal_length :
  forallb balanced_render (trace (snd (main initial))) = true.
Proof.
  rewrite main_by_parts. cbv zeta.
  destruct (create_kafka_consumer _ _) as [c|e]; [|reflexivity].
  set (topic := os_getenv getenv "PROJECT_TOPIC" "project_json").
  set (w5 := emit (Logged INFO (PollingMessages topic)) _).
  destruct (consume_loop (polls c) w5) as [r wl] eqn:Hloop.
  rewrite (consume_by_loop_outcome topic c w5 wl r Hloop).
  destruct (consume_loop_grows (polls c) w5)
    as (pts & evs & _ & _ & Htr & _ & _ & Hb).
  rewrite Hloop in Htr. simpl in Htr.
  specialize (Hb eq_refl).
  destruct r as [u|e]; [|destruct e]; destruct (close_raises c); simpl;
    unfold emit; simpl; rewrite Htr; simpl;
    rewrite ?forallb_app; simpl; rewrite ?forallb_app; simpl;
    rewrite Hb; reflexivity.
Qed.

Lemma last_app_cons (l l1 : list event) (ev d : event) :
  last (l ++ ev :: l1) d = last (ev :: l1) d.
Proof.
  induction l as [|x l IH]; [reflexivity|].
  simpl app. rewrite <- IH. simpl. destruct (l ++ ev :: l1) eqn:H;
    [destruct l; discriminate|reflexivity].
Qed.

(** X16.  The record of the end of [main] is the last thing logged exactly when
    [main] returns: a run that raises (no consumer could be created,
    [close] raised, an exception no clause handles went through) never
    logs its end. *)
Theorem main_logs_its_end_exactly_when_it_returns (w : world) :
  match fst (main w) with
  | Returned _ =>
      last (trace (snd (main w))) Close =
        Logged INFO
          (EndConsumer
             (os_getenv getenv "PROJECT_TOPIC" "project_json")
             (os_getenv getenv "PROJECT_CONSUMER_GROUP_ID" "project_group"))
  | Raised _ =>
      last (trace (snd (main w))) Close <>
        Logged INFO
          (EndConsumer
             (os_getenv getenv "PROJECT_TOPIC" "project_json")
             (os_getenv getenv "PROJECT_CONSUMER_GROUP_ID" "project_group"))
  end.
Proof.
  rewrite main_by_parts. cbv zeta.
  destruct (create_kafka_consumer _ _) as [c|e].
  - set (topic := os_getenv getenv "PROJECT_TOPIC" "project_json").
    set (w5 := emit (Logged INFO (PollingMessages topic)) _).
    destruct (consume_loop (polls c) w5) as [r wl] eqn:Hloop.
    rewrite (consume_by_loop_outcome topic c w5 wl r Hloop).
    destruct r as [u|e]; [|destruct e]; destruct (close_raises c); simpl;
      rewrite ?last_last, ?last_app_cons; simpl;
      try reflexivity; discriminate.
  - simpl. rewrite last_app_cons. simpl. discriminate.
Qed.

End Exits.


(** * The further properties on concrete runs *)

Lemma scenario_B_is_reported_once :
  Json.loads scenario_B = Raised JSONDecodeError /\
  process_message Json.loads draw_ok scenario_B initial =
    (Returned tt,
     mkWorld [] []
       [Logged DEBUG (RawMessage scenario_B);
        Logged ERROR (InvalidJSON scenario_B)]).
Proof.
  split; [reflexivity|].
  exact (undecodable_payload_is_reported_once Json.loads draw_ok
           scenario_B JSONDecodeError initial eq_refl eq_refl).
Defined.

Lemma a_JSON_array_is_reported_as_a_list :
  Json.loads "[1, 2]" = Returned (PyList [PyInt 1; PyInt 2]) /\
  process_message Json.loads draw_ok "[1, 2]" initial =
    (Returned tt,
     mkWorld [] []
       [Logged DEBUG (RawMessage "[1, 2]");
        Logged INFO (ProcessedJSON (PyList [PyInt 1; PyInt 2]));
        Logged ERROR (ExpectedDict "list")]).
Proof.
  split; [reflexivity|].
  exact (non_object_is_reported Json.loads draw_ok "[1, 2]"
           (PyList [PyInt 1; PyInt 2]) initial eq_refl eq_refl).
Defined.

Lemma scenario_A_with_working_display :
  draw_ok 0 [PyStr "2025-01-29 14:35:20"]
    [PyFloat (S754_finite false 8106479329266893 (-53))] = None /\
  fst (process_message Json.loads draw_ok scenario_A initial) = Returned tt /\
  last (trace (snd (process_message Json.loads draw_ok scenario_A initial)))
    Close = Logged INFO (ChartUpdated scenario_A).
Proof.
  pose proof
    (accepted_message_with_working_display Json.loads draw_ok scenario_A
       [("timestamp", PyStr "2025-01-29 14:35:20");
        ("sentiment", PyFloat (S754_finite false 8106479329266893 (-53)))]
       initial) as H.
  rewrite H; try (vm_compute; reflexivity).
  split; [reflexivity|]. split; reflexivity.
Defined.

Lemma interrupted_redraw_of_scenario_D1 :
  draw_interrupted 0 [PyStr "t1"]
    [PyFloat (S754_finite false 4503599627370496 (-53))] =
    Some KeyboardInterrupt /\
  fst (consume_loop Json.loads draw_interrupted
         [Message scenario_D1 0; Message scenario_D2 1] initial) =
    Raised KeyboardInterrupt /\
  timestamps
    (snd (consume_loop Json.loads draw_interrupted
            [Message scenario_D1 0; Message scenario_D2 1] initial)) =
    [PyStr "t1"].
Proof.
  pose proof
    (interrupted_redraw_stops_the_loop Json.loads draw_interrupted scenario_D1
       [("timestamp", PyStr "t1");
        ("sentiment", PyFloat (S754_finite false 4503599627370496 (-53)))]
       0 [Message scenario_D2 1] initial KeyboardInterrupt) as H.
  rewrite H; try (vm_compute; reflexivity).
  split; [reflexivity|]. split; reflexivity.
Defined.

Lemma failing_consumer_raises_what_its_poll_raised :
  fst (consume_loop Json.loads draw_ok (polls failing_consumer) initial) =
    Raised (OtherException "KafkaError") /\
  In (PollRaises (OtherException "KafkaError")) (polls failing_consumer).
Proof.
  split; [vm_compute; reflexivity|].
  apply (loop_raises_an_Exception_only_from_polling Json.loads draw_ok
           (polls failing_consumer) initial (OtherException "KafkaError"));
    vm_compute; reflexivity.
Defined.

Lemma interrupted_consumer_is_closed_with_a_warning :
  fst (consume_loop Json.loads draw_ok (polls interrupted_consumer) initial) =
    Raised KeyboardInterrupt /\
  fst (consume Json.loads draw_ok "project_json" interrupted_consumer initial) =
    Returned tt /\
  store (snd (consume Json.loads draw_ok "project_json" interrupted_consumer
                initial)) =
    [(PyStr "t1", PyFloat (S754_finite false 4503599627370496 (-53)))].
Proof.
  pose proof
    (interrupt_is_logged_as_warning_and_consumer_closed Json.loads draw_ok
       "project_json" interrupted_consumer initial
       (snd (consume_loop Json.loads draw_ok (polls interrupted_consumer)
               initial))) as H.
  rewrite H; [|vm_compute; reflexivity].
  split; [vm_compute; reflexivity|].
  split; [reflexivity|vm_compute; reflexivity].
Defined.

Lemma exiting_consumer_is_closed_and_the_exit_goes_on :
  fst (consume_loop Json.loads draw_ok (polls exiting_consumer) initial) =
    Raised (OtherBaseException "SystemExit") /\
  fst (consume Json.loads draw_ok "project_json" exiting_consumer initial) =
    Raised (OtherBaseException "SystemExit") /\
  closes (trace (snd (consume Json.loads draw_ok "project_json"
                        exiting_consumer initial))) = 1%nat.
Proof.
  pose proof
    (other_exception_propagates_after_close Json.loads draw_ok
       "project_json" exiting_consumer initial
       (snd (consume_loop Json.loads draw_ok (polls exiting_consumer) initial))
       "SystemExit") as H.
  rewrite H; [|vm_compute; reflexivity].
  split; [vm_compute; reflexivity|].
  split; [reflexivity|vm_compute; reflexivity].
Defined.

Lemma finite_consumer_is_closed_quietly :
  fst (consume_loop Json.loads draw_ok (polls finite_consumer) initial) =
    Returned tt /\
  close_raises finite_consumer = None /\
  fst (consume Json.loads draw_ok "project_json" finite_consumer initial) =
    Returned tt /\
  closes (trace (snd (consume Json.loads draw_ok "project_json"
                        finite_consumer initial))) = 1%nat.
Proof.
  pose proof
    (exhausted_consumer_is_closed_quietly Json.loads draw_ok
       "project_json" finite_consumer initial
       (snd (consume_loop Json.loads draw_ok (polls finite_consumer) initial)))
    as H.
  rewrite H; try (vm_compute; reflexivity).
  split; [vm_compute; reflexivity|].
  split; [reflexivity|].
  split; [reflexivity|vm_compute; reflexivity].
Defined.

Lemma close_that_raises_on_scenario_A :
  close_raises
    (mkConsumer [Message scenario_A 0] (Some (OtherException "KafkaError"))) =
    Some (OtherException "KafkaError") /\
  fst (consume Json.loads draw_ok "project_json"
         (mkConsumer [Message scenario_A 0]
            (Some (OtherException "KafkaError")))
         initial) = Raised (OtherException "KafkaError").
Proof.
  split; [reflexivity|].
  exact (proj1
           (failing_close_raises_and_is_not_logged Json.loads draw_ok
              "project_json"
              (mkConsumer [Message scenario_A 0]
                 (Some (OtherException "KafkaError")))
              initial (OtherException "KafkaError") eq_refl)).
Defined.

Lemma main_with_no_broker :
  no_broker "project_json" "project_group" =
    Raised (OtherException "NoBrokersAvailable") /\
  main Json.loads draw_ok no_env no_broker initial =
    (Raised (OtherException "NoBrokersAvailable"),
     mkWorld [] []
       [Logged INFO StartConsumer;
        Logged INFO (KafkaTopic "project_json");
        Logged INFO (KafkaGroupId "project_group");
        Logged INFO (ConsumerTopicGroup "project_json" "project_group")]).
Proof.
  split; [reflexivity|].
  exact (main_without_a_consumer Json.loads draw_ok no_env no_broker initial
           (OtherException "NoBrokersAvailable") eq_refl).
Defined.

(** The whole of [main] on the records of [finite_consumer], with a display
    surface that never draws: the run still returns with both points. *)
Lemma main_on_the_finite_consumer_without_display :
  fst (main Json.loads draw_fails no_env (broker (polls finite_consumer))
         initial) = Returned tt /\
  store (snd (main Json.loads draw_fails no_env
                (broker (polls finite_consumer)) initial)) =
    [(PyStr "t1", PyFloat (S754_finite false 4503599627370496 (-53)));
     (PyStr "t2", PyFloat (S754_finite true 5404319552844595 (-54)))] /\
  closes (trace (snd (main Json.loads draw_fails no_env
                        (broker (polls finite_consumer)) initial))) = 1%nat.
Proof.
  destruct
    (main_on_a_finite_topic Json.loads draw_fails no_env
       (broker (polls finite_consumer)) finite_consumer
       [(scenario_D1, 0); (scenario_B, 1); (scenario_D2, 2)])
    as (Hr & Hstore & _ & Hcloses & _).
  - intros m e [<-|[<-|[<-|[]]]] H; vm_compute in H;
      try discriminate; injection H as <-; reflexivity.
  - intros n xs ys e H. injection H as <-. reflexivity.
  - reflexivity.
  - reflexivity.
  - reflexivity.
  - split; [exact Hr|].
    split; [rewrite Hstore; vm_compute; reflexivity|exact Hcloses].
Defined.

(** The records of [finite_consumer]: the loop returns, two points were
    appended and two redraws made. *)
Lemma finite_consumer_is_redrawn_once_per_point :
  fst (consume_loop Json.loads draw_ok (polls finite_consumer) initial) =
    Returned tt /\
  (renders
     (trace (snd (consume_loop Json.loads draw_ok (polls finite_consumer)
                    initial)))
   + List.length (timestamps initial))%nat =
  (renders (trace initial)
   + List.length
       (timestamps (snd (consume_loop Json.loads draw_ok
                           (polls finite_consumer) initial))))%nat.
Proof.
  split; [vm_compute; reflexivity|].
  apply (proj2
           (loop_redraws_no_more_than_it_appends Json.loads draw_ok
              (polls finite_consumer) initial)).
  vm_compute. reflexivity.
Defined.
